(** * ArtinAR: the WebXR session controller of [src/final/app.js]

    The program is one event-driven controller.  Its handlers run to
    completion on a single thread; an [await] or a loader callback splits a
    handler into segments that the host resumes later.  The embedding keeps
    that shape: every handler segment is a computation in a small state and
    exception monad over the page state, suspended work is kept in explicit
    lists of pending tasks, and the host is a stream of events that deliver a
    click, a tap, a frame, or the settlement of one pending task. *)

From stdpp Require Import base list strings.
From Stdlib Require Import Lia.

Set Default Proof Using "Type".
Set Implicit Arguments.
Open Scope string_scope.
Open Scope nat_scope.
Open Scope list_scope.

(** ** Effects

    Every call that leaves the controller (console, DOM, XR session, renderer,
    loader, the external [onNoXRDevice]) is recorded, in program order. *)

(** The two kinds of node the controller adds to the scene itself. *)
Inductive Node := ReticleNode | CloneNode.

Inductive Effect :=
  | Log (msg : string)              (* console.log / console.error, fixed text *)
  | LogException                    (* console.log(e) in the catch block *)
  | NoXRDevice                      (* onNoXRDevice() *)
  | UnhandledRejection              (* an async function rejected with no handler *)
  | IsSessionSupported              (* navigator.xr.isSessionSupported("immersive-ar") *)
  | WireEnterAR                     (* #enter-ar .addEventListener("click", activateXR) *)
  | RequestSession                  (* navigator.xr.requestSession("immersive-ar", ...) *)
  | CreateCanvas                    (* document.createElement("canvas") *)
  | AppendCanvas                    (* document.body.appendChild(canvas) *)
  | GetContext                      (* canvas.getContext("webgl", {xrCompatible: true}) *)
  | NewXRWebGLLayer                 (* new XRWebGLLayer(session, gl) *)
  | UpdateRenderState               (* session.updateRenderState({baseLayer}) *)
  | ClassAdd (c : string)           (* document.body.classList.add(c) *)
  | NewRenderer                     (* new THREE.WebGLRenderer(...) *)
  | CreateLitScene                  (* DemoUtils.createLitScene() *)
  | NewReticle                      (* new Reticle() *)
  | SceneAdd (n : Node)             (* scene.add(reticle) / scene.add(clone) *)
  | NewCamera                       (* new THREE.PerspectiveCamera() *)
  | RequestReferenceSpace (kind : string)
  | RequestHitTestSource
  | RequestAnimationFrame           (* session.requestAnimationFrame(onXRFrame) *)
  | AddSelectListener               (* session.addEventListener("select", onSelect) *)
  | LoaderLoad (url : string)       (* new THREE.GLTFLoader().load(url, ...) *)
  | CloneModel                      (* window.customModel.clone() *)
  | BindFramebuffer
  | SetFramebuffer
  | GetViewerPose
  | GetViewport
  | SetSize
  | CameraFromView                  (* camera.matrix / projectionMatrix .fromArray, updateMatrixWorld *)
  | GetHitTestResults
  | GetHitPose
  | ReticleUpdateMatrixWorld
  | Render.

(** A diagnostic line, as opposed to a call into the platform. *)
Definition is_diagnostic (e : Effect) : bool :=
  match e with
  | Log _ | LogException => true
  | _ => false
  end.

(** The calls among a run of effects, diagnostics dropped. *)
Definition actions (t : list Effect) : list Effect :=
  List.filter (λ e, negb (is_diagnostic e)) t.

(** Buttons of the model selector and the asset each one is bound to. *)
Inductive Button := Model1Button | Model2Button.

Definition asset_of (b : Button) : string :=
  match b with
  | Model1Button => "../assets/scene.gltf"
  | Model2Button => "../assets/sceneD.gltf"
  end.

(** Suspension points of [activateXR] (including the awaited
    [onSessionStarted], which runs inside its [try]). *)
Inductive Stage :=
  | AwaitSession            (* await navigator.xr.requestSession(...) *)
  | AwaitLocalSpace         (* await requestReferenceSpace('local') *)
  | AwaitViewerSpace        (* await requestReferenceSpace('viewer') *)
  | AwaitHitTestSource.     (* await requestHitTestSource({space}) *)

(** [navigator]: [xr] may be missing, and so may [xr.isSessionSupported]. *)
Record XRSystem := { has_isSessionSupported : bool }.
Record Navigator := { xr : option XRSystem }.

Section Controller.

(** JavaScript numbers.  The controller only copies them, so the carrier is
    left abstract. *)
Variable num : Type.

Record Vec3 := { vx : num; vy : num; vz : num }.

(** A scene-graph node, as far as the controller reads or writes it. *)
Record Object3D := {
  name : string;
  position : Vec3;
  visible : bool;
  content : string   (* what the node draws; copied by [clone] *)
}.

(** What the loader hands to its success callback; [gltf.scene] may be
    undefined. *)
Record Gltf := { gscene : option Object3D }.

(** The sixteen elements of each matrix of a camera; an element read from
    beyond the end of an array is undefined ([None]). *)
Record Camera := { matrix : list (option num); projectionMatrix : list (option num) }.

(** [Matrix4.fromArray(array)]: elements 0 to 15 are set to [array[0]] to
    [array[15]], whatever the length of the array. *)
Definition fromArray (array : list num) : list (option num) :=
  (λ i, array !! i) <$> seq 0 16.

(** Per-frame data. *)
Record XRView := {
  view_matrix : list num;           (* view.transform.matrix *)
  view_projection : list num;       (* view.projectionMatrix *)
  viewport : num * num              (* baseLayer.getViewport(view).{width,height} *)
}.
Record XRViewerPose := { view0 : XRView; more_views : list XRView }.
Record XRHitTestResult := { hit_position : Vec3 }.   (* getPose(space).transform.position *)
Record XRFrame := {
  getViewerPose : option XRViewerPose;      (* null when the pose is lost *)
  getHitTestResults : list XRHitTestResult
}.

(** The collaborators with a fixed contract (spec section 6). *)
Record World := {
  navigator : Navigator;
  webgl : option nat;               (* result of canvas.getContext; None is null *)
  createLitScene : list Object3D;   (* children of DemoUtils.createLitScene() *)
  newReticle : Object3D;            (* new Reticle() *)
  newCamera : Camera;               (* new THREE.PerspectiveCamera() *)
  fetch : string → Gltf             (* what GLTFLoader delivers for a reference *)
}.

(** ** State *)

(** Fields of the [App] instance ([this]). *)
Record App := {
  modelPlaced : bool;
  stabilized : bool;                      (* undefined until first set *)
  xrSession : option nat;
  canvas : option nat;
  gl : option nat;
  localReferenceSpace : option nat;
  viewerSpace : option nat;
  hitTestSource : option nat;
  rendererSize : option (num * num);
  scene : list Object3D;                  (* this.scene.children *)
  reticle : nat;                          (* this.reticle, as its index in the scene *)
  camera : option Camera
}.

(** Module-level variables and the document. *)
Record Page := {
  selectedModel : string;
  customModel : option Object3D;          (* window.customModel *)
  enterArWired : bool;                    (* click listener on #enter-ar *)
  bodyCanvases : list nat;                (* canvas elements attached to document.body *)
  canvasesCreated : nat;
  bodyClasses : list string
}.

(** What the host holds for the controller: registered callbacks and
    operations in flight. *)
Record Host := {
  frameCallbacks : nat;                   (* pending requestAnimationFrame registrations *)
  selectListener : bool;
  probePending : bool;                    (* the start-up probe is suspended at its await *)
  activations : list Stage;               (* suspended runs of activateXR *)
  loads : list string                     (* loader.load calls in flight, by url *)
}.

Record State := {
  this : App;
  page : Page;
  host : Host;
  trace : list Effect
}.

(** ** Field updates *)

Definition set_modelPlaced (v : bool) (a : App) : App :=
  {| modelPlaced := v; stabilized := stabilized a; xrSession := xrSession a;
     canvas := canvas a; gl := gl a; localReferenceSpace := localReferenceSpace a;
     viewerSpace := viewerSpace a; hitTestSource := hitTestSource a;
     rendererSize := rendererSize a; scene := scene a; reticle := reticle a;
     camera := camera a |}.

Definition set_stabilized (v : bool) (a : App) : App :=
  {| modelPlaced := modelPlaced a; stabilized := v; xrSession := xrSession a;
     canvas := canvas a; gl := gl a; localReferenceSpace := localReferenceSpace a;
     viewerSpace := viewerSpace a; hitTestSource := hitTestSource a;
     rendererSize := rendererSize a; scene := scene a; reticle := reticle a;
     camera := camera a |}.

Definition set_xrSession (v : option nat) (a : App) : App :=
  {| modelPlaced := modelPlaced a; stabilized := stabilized a; xrSession := v;
     canvas := canvas a; gl := gl a; localReferenceSpace := localReferenceSpace a;
     viewerSpace := viewerSpace a; hitTestSource := hitTestSource a;
     rendererSize := rendererSize a; scene := scene a; reticle := reticle a;
     camera := camera a |}.

Definition set_canvas (v : option nat) (a : App) : App :=
  {| modelPlaced := modelPlaced a; stabilized := stabilized a; xrSession := xrSession a;
     canvas := v; gl := gl a; localReferenceSpace := localReferenceSpace a;
     viewerSpace := viewerSpace a; hitTestSource := hitTestSource a;
     rendererSize := rendererSize a; scene := scene a; reticle := reticle a;
     camera := camera a |}.

Definition set_gl (v : option nat) (a : App) : App :=
  {| modelPlaced := modelPlaced a; stabilized := stabilized a; xrSession := xrSession a;
     canvas := canvas a; gl := v; localReferenceSpace := localReferenceSpace a;
     viewerSpace := viewerSpace a; hitTestSource := hitTestSource a;
     rendererSize := rendererSize a; scene := scene a; reticle := reticle a;
     camera := camera a |}.

Definition set_localReferenceSpace (v : option nat) (a : App) : App :=
  {| modelPlaced := modelPlaced a; stabilized := stabilized a; xrSession := xrSession a;
     canvas := canvas a; gl := gl a; localReferenceSpace := v;
     viewerSpace := viewerSpace a; hitTestSource := hitTestSource a;
     rendererSize := rendererSize a; scene := scene a; reticle := reticle a;
     camera := camera a |}.

Definition set_viewerSpace (v : option nat) (a : App) : App :=
  {| modelPlaced := modelPlaced a; stabilized := stabilized a; xrSession := xrSession a;
     canvas := canvas a; gl := gl a; localReferenceSpace := localReferenceSpace a;
     viewerSpace := v; hitTestSource := hitTestSource a;
     rendererSize := rendererSize a; scene := scene a; reticle := reticle a;
     camera := camera a |}.

Definition set_hitTestSource (v : option nat) (a : App) : App :=
  {| modelPlaced := modelPlaced a; stabilized := stabilized a; xrSession := xrSession a;
     canvas := canvas a; gl := gl a; localReferenceSpace := localReferenceSpace a;
     viewerSpace := viewerSpace a; hitTestSource := v;
     rendererSize := rendererSize a; scene := scene a; reticle := reticle a;
     camera := camera a |}.

Definition set_rendererSize (v : option (num * num)) (a : App) : App :=
  {| modelPlaced := modelPlaced a; stabilized := stabilized a; xrSession := xrSession a;
     canvas := canvas a; gl := gl a; localReferenceSpace := localReferenceSpace a;
     viewerSpace := viewerSpace a; hitTestSource := hitTestSource a;
     rendererSize := v; scene := scene a; reticle := reticle a;
     camera := camera a |}.

Definition set_scene (v : list Object3D) (a : App) : App :=
  {| modelPlaced := modelPlaced a; stabilized := stabilized a; xrSession := xrSession a;
     canvas := canvas a; gl := gl a; localReferenceSpace := localReferenceSpace a;
     viewerSpace := viewerSpace a; hitTestSource := hitTestSource a;
     rendererSize := rendererSize a; scene := v; reticle := reticle a;
     camera := camera a |}.

Definition set_reticle (v : nat) (a : App) : App :=
  {| modelPlaced := modelPlaced a; stabilized := stabilized a; xrSession := xrSession a;
     canvas := canvas a; gl := gl a; localReferenceSpace := localReferenceSpace a;
     viewerSpace := viewerSpace a; hitTestSource := hitTestSource a;
     rendererSize := rendererSize a; scene := scene a; reticle := v;
     camera := camera a |}.

Definition set_camera (v : option Camera) (a : App) : App :=
  {| modelPlaced := modelPlaced a; stabilized := stabilized a; xrSession := xrSession a;
     canvas := canvas a; gl := gl a; localReferenceSpace := localReferenceSpace a;
     viewerSpace := viewerSpace a; hitTestSource := hitTestSource a;
     rendererSize := rendererSize a; scene := scene a; reticle := reticle a;
     camera := v |}.

Definition set_selectedModel (v : string) (p : Page) : Page :=
  {| selectedModel := v; customModel := customModel p; enterArWired := enterArWired p;
     bodyCanvases := bodyCanvases p; canvasesCreated := canvasesCreated p;
     bodyClasses := bodyClasses p |}.

Definition set_customModel (v : option Object3D) (p : Page) : Page :=
  {| selectedModel := selectedModel p; customModel := v; enterArWired := enterArWired p;
     bodyCanvases := bodyCanvases p; canvasesCreated := canvasesCreated p;
     bodyClasses := bodyClasses p |}.

Definition set_enterArWired (v : bool) (p : Page) : Page :=
  {| selectedModel := selectedModel p; customModel := customModel p; enterArWired := v;
     bodyCanvases := bodyCanvases p; canvasesCreated := canvasesCreated p;
     bodyClasses := bodyClasses p |}.

Definition set_bodyCanvases (v : list nat) (p : Page) : Page :=
  {| selectedModel := selectedModel p; customModel := customModel p;
     enterArWired := enterArWired p;
     bodyCanvases := v; canvasesCreated := canvasesCreated p;
     bodyClasses := bodyClasses p |}.

Definition set_canvasesCreated (v : nat) (p : Page) : Page :=
  {| selectedModel := selectedModel p; customModel := customModel p;
     enterArWired := enterArWired p;
     bodyCanvases := bodyCanvases p; canvasesCreated := v;
     bodyClasses := bodyClasses p |}.

Definition set_bodyClasses (v : list string) (p : Page) : Page :=
  {| selectedModel := selectedModel p; customModel := customModel p;
     enterArWired := enterArWired p;
     bodyCanvases := bodyCanvases p; canvasesCreated := canvasesCreated p;
     bodyClasses := v |}.

Definition set_frameCallbacks (v : nat) (h : Host) : Host :=
  {| frameCallbacks := v; selectListener := selectListener h;
     probePending := probePending h; activations := activations h; loads := loads h |}.

Definition set_selectListener (v : bool) (h : Host) : Host :=
  {| frameCallbacks := frameCallbacks h; selectListener := v;
     probePending := probePending h; activations := activations h; loads := loads h |}.

Definition set_probePending (v : bool) (h : Host) : Host :=
  {| frameCallbacks := frameCallbacks h; selectListener := selectListener h;
     probePending := v; activations := activations h; loads := loads h |}.

Definition set_activations (v : list Stage) (h : Host) : Host :=
  {| frameCallbacks := frameCallbacks h; selectListener := selectListener h;
     probePending := probePending h; activations := v; loads := loads h |}.

Definition set_loads (v : list string) (h : Host) : Host :=
  {| frameCallbacks := frameCallbacks h; selectListener := selectListener h;
     probePending := probePending h; activations := activations h; loads := v |}.

(** ** The handler monad: state, plus an exception that aborts the segment *)

Inductive Outcome (A : Type) :=
  | Done (a : A) (s : State)
  | Thrown (s : State).
Arguments Done {A} a s.
Arguments Thrown {A} s.

Definition M (A : Type) : Type := State → Outcome A.

Definition ret {A} (a : A) : M A := λ s, Done a s.

Definition bind {A B} (m : M A) (k : A → M B) : M B :=
  λ s, match m s with
       | Done a s' => k a s'
       | Thrown s' => Thrown s'
       end.

Definition throw {A} : M A := λ s, Thrown s.

(** [try { m } catch (e) { h }]. *)
Definition try_catch (m h : M unit) : M unit :=
  λ s, match m s with
       | Done a s' => Done a s'
       | Thrown s' => h s'
       end.

(** The state a segment leaves behind, thrown or not. *)
Definition final {A} (o : Outcome A) : State :=
  match o with
  | Done _ s => s
  | Thrown s => s
  end.

Definition get {A} (f : State → A) : M A := λ s, Done (f s) s.

Definition emit (e : Effect) : M unit :=
  λ s, Done tt {| this := this s; page := page s; host := host s; trace := trace s ++ [e] |}.

Definition updApp (f : App → App) : M unit :=
  λ s, Done tt {| this := f (this s); page := page s; host := host s; trace := trace s |}.

Definition updPage (f : Page → Page) : M unit :=
  λ s, Done tt {| this := this s; page := f (page s); host := host s; trace := trace s |}.

Definition updHost (f : Host → Host) : M unit :=
  λ s, Done tt {| this := this s; page := page s; host := f (host s); trace := trace s |}.

Definition log (msg : string) : M unit := emit (Log msg).

Notation "x <- m ;; k" := (bind m (λ x, k))
  (at level 100, m at next level, k at level 200, right associativity, only parsing).
Notation "m ;; k" := (bind m (λ _, k))
  (at level 100, k at level 200, right associativity, only parsing).

(** ** The program *)

Variable W : World.

(** The external [onNoXRDevice()]: only the call is observed. *)
Definition onNoXRDevice : M unit := emit NoXRDevice.

(** [document.body.classList.add(c)]: a class list is a set. *)
Definition classList_add (c : string) : M unit :=
  emit (ClassAdd c) ;;
  updPage (λ p, if bool_decide (c ∈ bodyClasses p) then p
                else set_bodyClasses (bodyClasses p ++ [c]) p).

(** Lines 20-27, up to the [await].  [a && b && await c] stops at the first
    falsy operand, so without [navigator.xr] or without the query the
    function runs on, synchronously, into the else branch. *)
Definition probe_start : M unit :=
  match xr (navigator W) with
  | None => onNoXRDevice
  | Some x =>
      if has_isSessionSupported x
      then emit IsSessionSupported ;; updHost (set_probePending true)
      else onNoXRDevice
  end.

(** Lines 21-26, after the [await]: [Some b] is the value the query resolved
    to, [None] a rejection.  The function has no [try], so a rejection is
    thrown out of it with neither branch run, and the host reports the
    promise of the function as rejected with no handler. *)
Definition probe_resume (r : option bool) : M unit :=
  match r with
  | Some true => emit WireEnterAR ;; updPage (set_enterArWired true)
  | Some false => onNoXRDevice
  | None => emit UnhandledRejection ;; throw
  end.

(** The top level of the script, in source order. *)
Definition script : M unit :=
  probe_start ;;
  updPage (set_selectedModel "../assets/scene.gltf") ;;
  updApp (set_modelPlaced false).

(** Lines 61-64, the catch block of [activateXR]. *)
Definition catch_block : M unit :=
  emit LogException ;;
  onNoXRDevice.

Definition suspend (g : Stage) : M unit :=
  updHost (λ h, set_activations (activations h ++ [g]) h).

(** Lines 46-53: [activateXR] up to its first [await]. *)
Definition activateXR : M unit :=
  try_catch
    (log "Attempting to initialize WebXR session..." ;;
     match xr (navigator W) with
     | None => throw                     (* navigator.xr is undefined *)
     | Some _ => emit RequestSession ;; suspend AwaitSession
     end)
    catch_block.

(** Lines 67-77.  [getContext] returns null when no context can be made;
    [new XRWebGLLayer(session, null)] then throws, before
    [updateRenderState] is called. *)
Definition createXRCanvas : M unit :=
  log "Creating XR canvas..." ;;
  c <- get (λ s, canvasesCreated (page s)) ;;
  emit CreateCanvas ;;
  updPage (set_canvasesCreated (S c)) ;;
  updApp (set_canvas (Some c)) ;;
  emit AppendCanvas ;;
  updPage (λ p, set_bodyCanvases (bodyCanvases p ++ [c]) p) ;;
  emit GetContext ;;
  updApp (set_gl (webgl W)) ;;
  log "XR canvas created successfully." ;;
  emit NewXRWebGLLayer ;;
  match webgl W with
  | None => throw
  | Some _ => emit UpdateRenderState
  end.

(** Lines 151-168. *)
Definition setupThreeJs : M unit :=
  log "Setting up Three.js..." ;;
  emit NewRenderer ;;
  updApp (set_rendererSize None) ;;
  emit CreateLitScene ;;
  updApp (set_scene (createLitScene W)) ;;
  emit NewReticle ;;
  emit (SceneAdd ReticleNode) ;;
  updApp (λ a, set_reticle (length (scene a)) (set_scene (scene a ++ [newReticle W]) a)) ;;
  emit NewCamera ;;
  updApp (set_camera (Some (newCamera W))) ;;
  log "Three.js setup completed.".

(** Lines 79-83: [onSessionStarted] up to its first [await]. *)
Definition onSessionStarted : M unit :=
  log "Starting XR session..." ;;
  classList_add "ar" ;;
  setupThreeJs ;;
  emit (RequestReferenceSpace "local") ;;
  suspend AwaitLocalSpace.

(** The segment that runs when the promise awaited at [g] fulfils with
    handle [h]. *)
Definition continue (g : Stage) (h : nat) : M unit :=
  match g with
  | AwaitSession =>
      updApp (set_xrSession (Some h)) ;;
      log "WebXR session initialized successfully." ;;
      createXRCanvas ;;
      onSessionStarted
  | AwaitLocalSpace =>
      updApp (set_localReferenceSpace (Some h)) ;;
      emit (RequestReferenceSpace "viewer") ;;
      suspend AwaitViewerSpace
  | AwaitViewerSpace =>
      updApp (set_viewerSpace (Some h)) ;;
      emit RequestHitTestSource ;;
      suspend AwaitHitTestSource
  | AwaitHitTestSource =>
      updApp (set_hitTestSource (Some h)) ;;
      emit RequestAnimationFrame ;;
      updHost (λ h, set_frameCallbacks (S (frameCallbacks h)) h) ;;
      emit AddSelectListener ;;
      updHost (set_selectListener true) ;;
      log "XR session started successfully."
  end.

(** Resuming [activateXR] at [g]: every suspension point lies inside its
    [try], so a rejection ([None]) or a throw in the segment lands in the
    catch block. *)
Definition resume (g : Stage) (r : option nat) : M unit :=
  try_catch
    (match r with
     | None => throw
     | Some h => continue g h
     end)
    catch_block.

(** Lines 91-99 and 117-120: the tap handler up to the call of the loader. *)
Definition onSelect : M unit :=
  log "Tapped!" ;;
  placed <- get (λ s, modelPlaced (this s)) ;;
  if placed : bool
  then log "Model already placed, ignoring tap."
  else
    url <- get (λ s, selectedModel (page s)) ;;
    emit (LoaderLoad url) ;;
    updHost (λ h, set_loads (loads h ++ [url]) h).

(** [this.reticle]: reading it before [setupThreeJs] ran is a TypeError. *)
Definition the_reticle : M Object3D :=
  λ s, match scene (this s) !! reticle (this s) with
       | Some r => Done r s
       | None => Thrown s
       end.

Definition set_y (y : num) (o : Object3D) : Object3D :=
  {| name := name o;
     position := {| vx := vx (position o); vy := y; vz := vz (position o) |};
     visible := visible o; content := content o |}.

(** Lines 99-116: the success callback of the loader. *)
Definition onLoad (gltf : Gltf) : M unit :=
  log "Model loaded successfully:" ;;
  updPage (set_customModel (gscene gltf)) ;;
  log "Custom model set:" ;;
  placed <- get (λ s, modelPlaced (this s)) ;;
  model <- get (λ s, customModel (page s)) ;;
  match placed, model with
  | false, Some m =>
      log "Placing the model for the first time..." ;;
      emit CloneModel ;;
      r <- the_reticle ;;
      let clone := {| name := name m; position := position r;
                      visible := visible m; content := content m |} in
      emit (SceneAdd CloneNode) ;;
      updApp (λ a, set_scene (scene a ++ [clone]) a) ;;
      log "Model placed at:" ;;
      children <- get (λ s, scene (this s)) ;;
      match list_find (λ c, name c = "shadowMesh") children with
      | Some (i, shadowMesh) =>
          updApp (set_scene (<[i := set_y (vy (position clone)) shadowMesh]> children)) ;;
          log "Shadow mesh updated."
      | None => ret tt
      end ;;
      updApp (set_modelPlaced true)
  | _, _ => ret tt
  end.

(** Lines 117-119: the error callback of the loader. *)
Definition onLoadError : M unit :=
  log "An error occurred loading the model:".

(** Lines 122-149. *)
Definition onXRFrame (frame : XRFrame) : M unit :=
  log "XR Frame" ;;
  emit RequestAnimationFrame ;;
  updHost (λ h, set_frameCallbacks (S (frameCallbacks h)) h) ;;
  emit BindFramebuffer ;;
  emit SetFramebuffer ;;
  emit GetViewerPose ;;
  match getViewerPose frame with
  | None => ret tt
  | Some pose =>
      let view := view0 pose in
      emit GetViewport ;;
      emit SetSize ;;
      updApp (set_rendererSize (Some (viewport view))) ;;
      emit CameraFromView ;;
      updApp (set_camera (Some {| matrix := fromArray (view_matrix view);
                                  projectionMatrix := fromArray (view_projection view) |})) ;;
      emit GetHitTestResults ;;
      let hitTestResults := getHitTestResults frame in
      stab <- get (λ s, stabilized (this s)) ;;
      (if negb stab && bool_decide (0 < length hitTestResults)
       then updApp (set_stabilized true) ;; classList_add "stabilized"
       else ret tt) ;;
      match hitTestResults with
      | [] => ret tt
      | hit :: _ =>
          emit GetHitPose ;;
          r <- the_reticle ;;
          i <- get (λ s, reticle (this s)) ;;
          updApp (λ a, set_scene
                         (<[i := {| name := name r; position := hit_position hit;
                                    visible := true; content := content r |}]> (scene a)) a) ;;
          emit ReticleUpdateMatrixWorld
      end ;;
      emit Render
  end.

(** Lines 29-39: the two click listeners of the model selector. *)
Definition onModelButton (b : Button) : M unit :=
  updPage (set_selectedModel (asset_of b)) ;;
  log (match b with
       | Model1Button => "Selected Model 1"
       | Model2Button => "Selected Model 2"
       end).

(** ** The host *)

Inductive Event :=
  | Click (b : Button)                              (* a model button is clicked *)
  | ClickEnterAR                                    (* #enter-ar is clicked *)
  | ProbeSettled (r : option bool)                  (* isSessionSupported settles *)
  | ActivationSettled (i : nat) (r : option nat)    (* the await of activation i settles *)
  | LoadSettled (i : nat) (ok : bool)               (* load i calls back: success or error *)
  | Select                                          (* the session fires "select" *)
  | Frame (f : XRFrame).                            (* the session runs a frame callback *)

(** An event reaches a handler only where the program registered one; the
    settlement of a task that is not pending is not an event of this run. *)
Definition deliver (e : Event) : M unit :=
  match e with
  | Click b => onModelButton b
  | ClickEnterAR =>
      wired <- get (λ s, enterArWired (page s)) ;;
      if wired : bool then activateXR else ret tt
  | ProbeSettled r =>
      pending <- get (λ s, probePending (host s)) ;;
      if pending : bool
      then updHost (set_probePending false) ;; probe_resume r
      else ret tt
  | ActivationSettled i r =>
      tasks <- get (λ s, activations (host s)) ;;
      match tasks !! i with
      | Some g => updHost (set_activations (delete i tasks)) ;; resume g r
      | None => ret tt
      end
  | LoadSettled i ok =>
      tasks <- get (λ s, loads (host s)) ;;
      match tasks !! i with
      | Some url =>
          updHost (set_loads (delete i tasks)) ;;
          if ok then onLoad (fetch W url) else onLoadError
      | None => ret tt
      end
  | Select =>
      listening <- get (λ s, selectListener (host s)) ;;
      if listening : bool then onSelect else ret tt
  | Frame f =>
      n <- get (λ s, frameCallbacks (host s)) ;;
      match n with
      | 0 => ret tt
      | S n' => updHost (set_frameCallbacks n') ;; onXRFrame f
      end
  end.

Definition step (s : State) (e : Event) : State := final (deliver e s).

Definition run (es : list Event) (s : State) : State := foldl step s es.

(** The page before the script runs. *)
Definition blank : State :=
  {| this := {| modelPlaced := false; stabilized := false; xrSession := None;
               canvas := None; gl := None; localReferenceSpace := None;
               viewerSpace := None; hitTestSource := None; rendererSize := None;
               scene := []; reticle := 0; camera := None |};
     page := {| selectedModel := ""; customModel := None; enterArWired := false;
                bodyCanvases := []; canvasesCreated := 0; bodyClasses := [] |};
     host := {| frameCallbacks := 0; selectListener := false; probePending := false;
                activations := []; loads := [] |};
     trace := [] |}.

(** The page once the script has run to its end. *)
Definition boot : State := final (script blank).

End Controller.

Unset Implicit Arguments.

Arguments Done {num A} a s.
Arguments Thrown {num A} s.
Arguments Click {num} b.
Arguments ClickEnterAR {num}.
Arguments ProbeSettled {num} r.
Arguments ActivationSettled {num} i r.
Arguments LoadSettled {num} i ok.
Arguments Select {num}.
Arguments blank {num}.

(** Handlers and the operations of the monad unfold once applied to a state. *)
Arguments ret [num] {A} a s /.
Arguments bind [num] {A B} m k s /.
Arguments throw [num] {A} s /.
Arguments try_catch [num] m h s /.
Arguments get [num] {A} f s /.
Arguments emit [num] e s /.
Arguments updApp [num] f s /.
Arguments updPage [num] f s /.
Arguments updHost [num] f s /.
Arguments log [num] msg s /.
Arguments onNoXRDevice [num] s /.
Arguments classList_add [num] c s /.
Arguments probe_start [num] W s /.
Arguments probe_resume [num] r s /.
Arguments script [num] W s /.
Arguments catch_block [num] s /.
Arguments suspend [num] g s /.
Arguments activateXR [num] W s /.
Arguments createXRCanvas [num] W s /.
Arguments setupThreeJs [num] W s /.
Arguments onSessionStarted [num] W s /.
Arguments continue [num] W g h s /.
Arguments resume [num] W g r s /.
Arguments onSelect [num] s /.
Arguments the_reticle [num] s /.
Arguments onLoad [num] gltf s /.
Arguments onLoadError [num] s /.
Arguments onXRFrame [num] frame s /.
Arguments onModelButton [num] b s /.
Arguments deliver [num] W e s /.
Arguments step [num] W s e /.

(** ** Observations on a trace *)

Definition count (p : Effect → bool) (t : list Effect) : nat :=
  length (List.filter p t).

(** Clones added to the scene: [this.scene.add(clone)]. *)
Definition placements : list Effect → nat :=
  count (λ e, match e with SceneAdd CloneNode => true | _ => false end).

(** Calls of the external fallback handler [onNoXRDevice]. *)
Definition fallbacks : list Effect → nat :=
  count (λ e, match e with NoXRDevice => true | _ => false end).

(** Calls of [navigator.xr.requestSession]. *)
Definition session_requests : list Effect → nat :=
  count (λ e, match e with RequestSession => true | _ => false end).

(** The button of the last click among some events, if any was clicked. *)
Definition last_click {num} (es : list (Event num)) : option Button :=
  foldl (λ acc e, match e with Click b => Some b | _ => acc end) None es.

(** A frame on which the controller obtains at least one hit-test result:
    the viewer pose is there (line 129) and the list is not empty. *)
Definition hits_found {num} (f : XRFrame num) : bool :=
  match getViewerPose f, getHitTestResults f with
  | Some _, _ :: _ => true
  | _, _ => false
  end.

(** Some frame callback of the run was given a frame with [hits_found]. *)
Fixpoint hit_delivered {num} (W : World num) (es : list (Event num)) (s : State num) : bool :=
  match es with
  | [] => false
  | e :: es' =>
      match e with
      | Frame f => bool_decide (0 < frameCallbacks (host s)) && hits_found f
      | _ => false
      end
      || hit_delivered W es' (step W s e)
  end.

(** Number of steps of a run at which [stabilized] goes from false to true. *)
Fixpoint flips {num} (W : World num) (es : list (Event num)) (s : State num) : nat :=
  match es with
  | [] => 0
  | e :: es' =>
      (if negb (stabilized (this s)) && stabilized (this (step W s e)) then 1 else 0)
      + flips W es' (step W s e)
  end.

(** Between two events, a clone is in the scene exactly when the flag is set. *)
Definition placed_once {num} (st : State num) : Prop :=
  placements (trace st) = if modelPlaced (this st) then 1 else 0.

(** Activation can never start: the button is not wired, the probe is over
    and no activation is suspended. *)
Definition unsupported {num} (st : State num) : Prop :=
  enterArWired (page st) = false
  ∧ probePending (host st) = false
  ∧ activations (host st) = [].

(** Some execution adds two clones to the scene. *)
Definition double_placement : Prop :=
  ∃ (num : Type) (W : World num) (es : list (Event num)),
    2 ≤ placements (trace (run W es (boot W))).

(** ** A concrete device and session, for the examples *)

Definition origin : Vec3 Z := {| vx := 0%Z; vy := 0%Z; vz := 0%Z |}.

Definition node (n c : string) : Object3D Z :=
  {| name := n; position := origin; visible := false; content := c |}.

(** The identity, as the sixteen entries of a 4x4 matrix. *)
Definition identity4 : list Z :=
  [1; 0; 0; 0;  0; 1; 0; 0;  0; 0; 1; 0;  0; 0; 0; 1]%Z.

(** A view matrix that moves the viewer by (0, 2, 0). *)
Definition lifted4 : list Z :=
  [1; 0; 0; 0;  0; 1; 0; 0;  0; 0; 1; 0;  0; 2; 0; 1]%Z.

(** A device with the query API; [ctx] is what [getContext] returns. *)
Definition device (ctx : option nat) : World Z :=
  {| navigator := {| xr := Some {| has_isSessionSupported := true |} |};
     webgl := ctx;
     createLitScene := [node "light" "light"; node "shadowMesh" "plane"];
     newReticle := node "reticle" "ring";
     newCamera := {| matrix := Some <$> identity4; projectionMatrix := Some <$> identity4 |};
     fetch := λ url, {| gscene := Some (node "model" url) |} |}.

Definition phone : World Z := device (Some 7).

(** The probe resolves to true, the user enters AR, every request succeeds. *)
Definition session_start : list (Event Z) :=
  [ProbeSettled (Some true); ClickEnterAR;
   ActivationSettled 0 (Some 1); ActivationSettled 0 (Some 2);
   ActivationSettled 0 (Some 3); ActivationSettled 0 (Some 4)].

Definition started : State Z := run phone session_start (boot phone).

Definition a_view : XRView Z :=
  {| view_matrix := lifted4; view_projection := identity4; viewport := (640%Z, 480%Z) |}.

Definition a_hit : XRHitTestResult Z :=
  {| hit_position := {| vx := 0%Z; vy := 0%Z; vz := (-1)%Z |} |}.

(** A frame with a viewer pose and one hit, at (0, 0, -1). *)
Definition tracked_frame : XRFrame Z :=
  {| getViewerPose := Some {| view0 := a_view; more_views := [] |};
     getHitTestResults := [a_hit] |}.

(** A frame with a viewer pose on which the hit test finds nothing. *)
Definition searching_frame : XRFrame Z :=
  {| getViewerPose := Some {| view0 := a_view; more_views := [] |};
     getHitTestResults := [] |}.

(** A frame whose viewer pose is lost while its hit-test source still reports
    the same hit. *)
Definition lost_frame : XRFrame Z :=
  {| getViewerPose := None; getHitTestResults := [a_hit] |}.

(** The session after one tracked frame, a tap, and the load calling back. *)
Definition placed : State Z :=
  run phone [Frame tracked_frame; Select; LoadSettled 0 true] started.

(** ** Further observations *)

(** [this.reticle] is defined and is a child of [this.scene]. *)
Definition ready {num} (st : State num) : Prop :=
  is_Some (scene (this st) !! reticle (this st)).

(** Either the scene is set up, or no tap, frame or load callback can run
    yet: nothing is registered, no load is in flight, and every suspended
    activation is still waiting for its session. *)
Definition handlers_after_setup {num} (st : State num) : Prop :=
  ready st
  ∨ (selectListener (host st) = false
     ∧ frameCallbacks (host st) = 0
     ∧ loads (host st) = []
     ∧ Forall (λ g, g = AwaitSession) (activations (host st))).

(** Clicks on the "enter AR" button among some events. *)
Definition enter_clicks {num} (es : list (Event num)) : nat :=
  length (List.filter (λ e, match e with ClickEnterAR => true | _ => false end) es).

(** Calls of [renderer.render]. *)
Definition renders : list Effect → nat :=
  count (λ e, match e with Render => true | _ => false end).

(** What the fallback handler can still be called for: the probe while it
    is suspended, and every suspended activation. *)
Definition attempts_open {num} (st : State num) : nat :=
  (if probePending (host st) then 1 else 0) + length (activations (host st)).

(** The document shows the stabilized state exactly when the flag is set,
    and its class list has no duplicates. *)
Definition ui_in_step {num} (st : State num) : Prop :=
  (stabilized (this st) = true ↔ "stabilized" ∈ bodyClasses (page st))
  ∧ NoDup (bodyClasses (page st)).

(** The session after a tap and then a tracked frame: the load is in flight
    and the reticle has moved to (0, 0, -1). *)
Definition tapped_then_tracked : State Z :=
  run phone [Select; Frame tracked_frame] started.


Section Properties.

Context {num : Type} (W : World num).

Implicit Types (st : State num) (e : Event num) (es : list (Event num)).
Implicit Types (t : list Effect).

(** Symbolic execution of a handler on a state. *)
Ltac exec :=
  cbn [step deliver onSelect onLoad onLoadError onXRFrame onModelButton
       activateXR resume continue createXRCanvas onSessionStarted setupThreeJs
       suspend catch_block probe_resume probe_start script classList_add
       onNoXRDevice the_reticle log emit updApp updPage updHost get bind ret
       throw try_catch final
       this page host trace
       modelPlaced stabilized xrSession canvas gl localReferenceSpace viewerSpace
       hitTestSource rendererSize scene reticle camera
       selectedModel customModel enterArWired bodyCanvases canvasesCreated bodyClasses
       frameCallbacks selectListener probePending activations loads
       set_modelPlaced set_stabilized set_xrSession set_canvas set_gl
       set_localReferenceSpace set_viewerSpace set_hitTestSource set_rendererSize
       set_scene set_reticle set_camera
       set_selectedModel set_customModel set_enterArWired set_bodyCanvases
       set_canvasesCreated set_bodyClasses
       set_frameCallbacks set_selectListener set_probePending set_activations set_loads]
    in *.

(** Projections of explicit records only, in the goal. *)
Ltac proj :=
  cbn [final this page host trace
       modelPlaced stabilized xrSession canvas gl localReferenceSpace viewerSpace
       hitTestSource rendererSize scene reticle camera
       selectedModel customModel enterArWired bodyCanvases canvasesCreated bodyClasses
       frameCallbacks selectListener probePending activations loads
       set_modelPlaced set_stabilized set_xrSession set_canvas set_gl
       set_localReferenceSpace set_viewerSpace set_hitTestSource set_rendererSize
       set_scene set_reticle set_camera
       set_selectedModel set_customModel set_enterArWired set_bodyCanvases
       set_canvasesCreated set_bodyClasses
       set_frameCallbacks set_selectListener set_probePending set_activations set_loads].

(** Execute, splitting on every test the handler makes. *)
Ltac exec_all := exec; repeat (first [progress simplify_eq | case_match]; exec).

Lemma run_app es1 es2 st : run W (es1 ++ es2) st = run W es2 (run W es1 st).
Proof. apply foldl_app. Qed.

Lemma run_snoc es e st : run W (es ++ [e]) st = step W (run W es st) e.
Proof. by rewrite run_app. Qed.

Lemma run_cons es e st : run W (e :: es) st = run W es (step W st e).
Proof. reflexivity. Qed.

(** An invariant of [step] is an invariant of [run]. *)
Lemma run_invariant (I : State num → Prop) :
  (∀ st e, I st → I (step W st e)) → ∀ es st, I st → I (run W es st).
Proof.
  intros Hstep es. induction es as [|e es IH]; intros st HI; [done|].
  rewrite run_cons. apply IH, Hstep, HI.
Qed.

Lemma count_app p t1 t2 : count p (t1 ++ t2) = count p t1 + count p t2.
Proof. unfold count. by rewrite List.filter_app, length_app. Qed.

(** Count over a trace that ends in explicit effects. *)
Ltac count_trace :=
  rewrite ?count_app; unfold count in *; cbn [List.filter length];
  rewrite ?Nat.add_0_r.

(** *** The placement flag *)

Lemma onSelect_placed st :
  modelPlaced (this st) = true →
  onSelect st =
    Done tt {| this := this st; page := page st; host := host st;
               trace := trace st ++ [Log "Tapped!"; Log "Model already placed, ignoring tap."] |}.
Proof.
  intros H. exec. rewrite H. exec. by rewrite <- app_assoc.
Qed.

Lemma step_modelPlaced st e :
  modelPlaced (this st) = true → modelPlaced (this (step W st e)) = true.
Proof.
  intros H. destruct e; exec_all; done.
Qed.

Lemma run_modelPlaced es st :
  modelPlaced (this st) = true → modelPlaced (this (run W es st)) = true.
Proof.
  revert st. apply (run_invariant (λ s, modelPlaced (this s) = true)).
  intros st e. apply step_modelPlaced.
Qed.

Lemma tap_placed st :
  modelPlaced (this st) = true →
  this (step W st Select) = this st ∧ page (step W st Select) = page st
  ∧ host (step W st Select) = host st.
Proof.
  intros H. exec. destruct (selectListener (host st)); [|done].
  by rewrite onSelect_placed.
Qed.

Lemma taps_placed n st :
  modelPlaced (this st) = true →
  this (run W (replicate n Select) st) = this st.
Proof.
  revert st. induction n as [|n IH]; intros st H; [done|].
  cbn [replicate]. rewrite run_cons.
  destruct (tap_placed st H) as (Hthis & _ & _).
  rewrite IH; [done|]. by rewrite Hthis.
Qed.

(** C1: once [modelPlaced] is true it stays true under every event, and in
    every later state a tap changes nothing of the controller, the page or the
    pending work, so that no number of taps changes the scene. *)
Theorem placement_flag_monotone st es :
  modelPlaced (this st) = true →
  let st' := run W es st in
  modelPlaced (this st') = true
  ∧ (this (step W st' Select) = this st'
     ∧ page (step W st' Select) = page st'
     ∧ host (step W st' Select) = host st')
  ∧ ∀ n, scene (this (run W (replicate n Select) st')) = scene (this st').
Proof.
  intros H st'.
  assert (H' : modelPlaced (this st') = true) by by apply run_modelPlaced.
  split; [done|]. split; [by apply tap_placed|].
  intros n. by rewrite taps_placed.
Qed.

(** *** At most one placement *)

Lemma step_placed_once st e : placed_once st → placed_once (step W st e).
Proof.
  unfold placed_once, placements. intros H.
  destruct e; exec_all; count_trace; try done.
  all: try (rewrite H; done).
Qed.

Lemma boot_placed_once : placed_once (boot W).
Proof. unfold placed_once, boot. exec_all; done. Qed.

Lemma placed_once_le st : placed_once st → placements (trace st) ≤ 1.
Proof. unfold placed_once. intros ->. destruct (modelPlaced (this st)); lia. Qed.

Lemma run_placed_once es st : placed_once st → placed_once (run W es st).
Proof. revert st. apply run_invariant. intros st e. apply step_placed_once. Qed.

(** C2, as amended: in a state where nothing is placed yet, two taps in a
    row both pass the guard of [onSelect] and both call the loader with the
    current selection; whatever happens next, at most one clone is ever added
    to the scene, because the load callback tests the flag again. *)
Theorem two_taps_one_placement st es :
  modelPlaced (this st) = false →
  placements (trace st) = 0 →
  selectListener (host st) = true →
  let st2 := run W [Select; Select] st in
  let url := selectedModel (page st) in
  loads (host st2) = loads (host st) ++ [url; url]
  ∧ trace st2 = trace st ++ [Log "Tapped!"; LoaderLoad url; Log "Tapped!"; LoaderLoad url]
  ∧ modelPlaced (this st2) = false
  ∧ placements (trace (run W es st2)) ≤ 1.
Proof.
  intros Hflag Hnone Hon st2 url.
  assert (Hst2 : st2 =
    {| this := this st; page := page st;
       host := set_loads (loads (host st) ++ [url; url]) (host st);
       trace := trace st ++ [Log "Tapped!"; LoaderLoad url; Log "Tapped!"; LoaderLoad url] |}).
  { subst st2 url. unfold run. cbn [foldl]. exec.
    repeat (first [rewrite Hon | rewrite Hflag]; exec).
    unfold set_loads. exec. by rewrite <- !app_assoc. }
  rewrite Hst2. exec. repeat split; try done.
  apply placed_once_le, run_placed_once. unfold placed_once. exec.
  rewrite Hflag. unfold placements in *. count_trace. by rewrite Hnone.
Qed.

(** *** Activation *)

(** C3, as amended: an activation fails exactly when an awaited promise
    rejects, when the context cannot be created, or when [navigator.xr] is
    missing.  Every failure runs the catch block, which calls the fallback
    handler once, and nothing is undone: a rejection leaves the state as the
    earlier segments left it, and a failed context creation leaves the session
    handle stored and the new canvas attached to the document. *)
Theorem activation_failure st g r :
  let st' := final (resume W g r st) in
  (r = None →
     trace st' = trace st ++ [LogException; NoXRDevice]
     ∧ this st' = this st ∧ page st' = page st ∧ host st' = host st)
  ∧ (∀ h, r = Some h → g = AwaitSession → webgl W = None →
     fallbacks (trace st') = S (fallbacks (trace st))
     ∧ bodyCanvases (page st') = bodyCanvases (page st) ++ [canvasesCreated (page st)]
     ∧ xrSession (this st') = Some h
     ∧ canvas (this st') = Some (canvasesCreated (page st))
     ∧ gl (this st') = None)
  ∧ (∀ h, r = Some h → (g = AwaitSession → webgl W ≠ None) →
     fallbacks (trace st') = fallbacks (trace st))
  ∧ (xr (navigator W) = None →
     final (activateXR W st) =
       {| this := this st; page := page st; host := host st;
          trace := trace st ++ [Log "Attempting to initialize WebXR session...";
                                LogException; NoXRDevice] |}).
Proof.
  intros st'. subst st'. split; [|split; [|split]].
  - intros ->. exec. by rewrite <- app_assoc.
  - intros h -> -> Hgl. exec. rewrite Hgl. exec. unfold fallbacks. count_trace.
    repeat split; try done. lia.
  - intros h -> Hok. unfold fallbacks. destruct g; exec_all; count_trace; try done.
    by destruct Hok.
  - intros Hxr. exec. rewrite Hxr. exec. by rewrite <- !app_assoc.
Qed.


(** *** The capability probe *)

Lemma step_unsupported st e :
  unsupported st →
  unsupported (step W st e)
  ∧ session_requests (trace (step W st e)) = session_requests (trace st)
  ∧ fallbacks (trace (step W st e)) = fallbacks (trace st).
Proof.
  intros (Hwired & Hprobe & Hact). unfold unsupported, session_requests, fallbacks.
  destruct e; exec; rewrite ?Hwired, ?Hprobe, ?Hact, ?lookup_nil; exec.
  all: exec_all; count_trace; try done.
Qed.

Lemma run_unsupported es st :
  unsupported st →
  unsupported (run W es st)
  ∧ session_requests (trace (run W es st)) = session_requests (trace st)
  ∧ fallbacks (trace (run W es st)) = fallbacks (trace st).
Proof.
  revert st. induction es as [|e es IH]; intros st H; [done|].
  rewrite run_cons. destruct (step_unsupported st e H) as (H' & Hs & Hf).
  rewrite <- Hs, <- Hf. by apply IH.
Qed.

(** The page after the script when the query is made: the probe is
    suspended at its [await]. *)
Lemma boot_probing x :
  xr (navigator W) = Some x → has_isSessionSupported x = true →
  boot W =
    {| this := this blank;
       page := set_selectedModel "../assets/scene.gltf" (page blank);
       host := set_probePending true (host (blank (num:=num)));
       trace := [IsSessionSupported] |}.
Proof. intros Hxr Hq. unfold boot. exec. rewrite Hxr, Hq. by exec. Qed.

(** Without [navigator.xr] or without the query, the fallback handler runs
    once, during the script, and activation can never start. *)
Lemma probe_api_absent es :
  (xr (navigator W) = None
   ∨ ∃ x, xr (navigator W) = Some x ∧ has_isSessionSupported x = false) →
  let st := run W es (boot W) in
  fallbacks (trace st) = 1
  ∧ enterArWired (page st) = false
  ∧ session_requests (trace st) = 0.
Proof.
  intros Habs st.
  assert (Hb : unsupported (boot W) ∧ trace (boot W) = [NoXRDevice]).
  { unfold boot, unsupported. destruct Habs as [Hxr | (x & Hxr & Hq)];
      exec; rewrite Hxr; exec; rewrite ?Hq; by exec. }
  destruct Hb as (Hun & Htr).
  destruct (run_unsupported es _ Hun) as ((Hw & _) & Hs & Hf).
  subst st. rewrite Hs, Hf, Htr. done.
Qed.

(** When the query resolves to false, the fallback handler runs once and
    activation can never start. *)
Lemma probe_resolves_false x es :
  xr (navigator W) = Some x → has_isSessionSupported x = true →
  let st := run W (ProbeSettled (Some false) :: es) (boot W) in
  fallbacks (trace st) = 1
  ∧ enterArWired (page st) = false
  ∧ session_requests (trace st) = 0.
Proof.
  intros Hxr Hq st. subst st. rewrite run_cons, (boot_probing x Hxr Hq).
  exec.
  match goal with |- context [run W es ?s] =>
    destruct (run_unsupported es s) as ((Hw & _) & -> & ->); [done|] end.
  done.
Qed.

(** C4, at the failing input: when the promise of [isSessionSupported]
    rejects, the probe ends in an unhandled rejection.  The button is not
    wired and no session is ever requested, but the fallback handler is never
    called, whatever happens afterwards. *)
Theorem probe_rejection_unhandled x es :
  xr (navigator W) = Some x → has_isSessionSupported x = true →
  let st := run W (ProbeSettled None :: es) (boot W) in
  trace (step W (boot W) (ProbeSettled None)) = [IsSessionSupported; UnhandledRejection]
  ∧ fallbacks (trace st) = 0
  ∧ enterArWired (page st) = false
  ∧ session_requests (trace st) = 0.
Proof.
  intros Hxr Hq st. subst st. rewrite run_cons, (boot_probing x Hxr Hq).
  exec. split; [done|].
  match goal with |- context [run W es ?s] =>
    destruct (run_unsupported es s) as ((Hw & _) & -> & ->); [done|] end.
  done.
Qed.

(** *** The model selector *)

Lemma step_selectedModel st e :
  selectedModel (page (step W st e)) =
    match e with
    | Click b => asset_of b
    | _ => selectedModel (page st)
    end.
Proof. destruct e; exec_all; done. Qed.

Lemma last_click_snoc es e :
  last_click (es ++ [e]) = match e with Click b => Some b | _ => last_click es end.
Proof. unfold last_click. by rewrite foldl_snoc. Qed.

Lemma run_selectedModel es st :
  selectedModel (page (run W es st)) =
    from_option asset_of (selectedModel (page st)) (last_click es).
Proof.
  induction es as [|e es IH] using rev_ind; [done|].
  rewrite run_snoc, last_click_snoc, step_selectedModel.
  by destruct e.
Qed.

(** C6: after any events, the selection is the asset bound to the button
    clicked last, "../assets/scene.gltf" for model 1 and
    "../assets/sceneD.gltf" for model 2; a tap that passes the guard then
    calls the loader once, with exactly that asset. *)
Theorem selection_follows_last_click st es b :
  last_click es = Some b →
  modelPlaced (this (run W es st)) = false →
  let st1 := run W es st in
  let url := match b with
             | Model1Button => "../assets/scene.gltf"
             | Model2Button => "../assets/sceneD.gltf"
             end in
  selectedModel (page st1) = url
  ∧ trace (final (onSelect st1)) = trace st1 ++ [Log "Tapped!"; LoaderLoad url]
  ∧ loads (host (final (onSelect st1))) = loads (host st1) ++ [url].
Proof.
  intros Hlast Hflag st1 url.
  assert (Hsel : selectedModel (page st1) = url).
  { subst st1 url. rewrite run_selectedModel, Hlast. by destruct b. }
  split; [done|]. exec. subst st1. rewrite Hflag. exec.
  rewrite Hsel. by rewrite <- app_assoc.
Qed.

(** *** The frame loop *)

(** C9: the effects of one call of [onXRFrame] start with the diagnostic
    line and the registration for the next frame, which is thus the first
    call the handler makes and comes before the pose is read; one more frame
    callback is registered than before.  When the pose is null, nothing
    follows the pose query: no camera update, no hit test, no reticle update,
    no render, and the controller and the page are as they were. *)
Theorem frame_reregisters_first st frame :
  let st' := final (onXRFrame frame st) in
  (∃ rest,
     trace st' = trace st ++ [Log "XR Frame"; RequestAnimationFrame; BindFramebuffer;
                              SetFramebuffer; GetViewerPose] ++ rest
     ∧ head (actions (drop (length (trace st)) (trace st'))) = Some RequestAnimationFrame
     ∧ (getViewerPose frame = None → rest = []))
  ∧ frameCallbacks (host st') = S (frameCallbacks (host st))
  ∧ (getViewerPose frame = None → this st' = this st ∧ page st' = page st)
  ∧ (0 < frameCallbacks (host st) →
     frameCallbacks (host (step W st (Frame frame))) = frameCallbacks (host st)).
Proof.
  intros st'. subst st'.
  assert (Htr : ∃ rest, trace (final (onXRFrame frame st)) =
    trace st ++ [Log "XR Frame"; RequestAnimationFrame; BindFramebuffer;
                 SetFramebuffer; GetViewerPose] ++ rest
    ∧ (getViewerPose frame = None → rest = [])).
  { exec_all; rewrite <- ?app_assoc; cbn [app]; eexists; (split; [reflexivity|]); done. }
  split; [|split; [|split]].
  - destruct Htr as (rest & Htr & Hnone). exists rest. split; [done|]. split; [|done].
    rewrite Htr. by rewrite drop_app_length.
  - exec_all; done.
  - intros Hpose. exec. rewrite Hpose. by exec.
  - intros Hpos. exec. destruct (frameCallbacks (host st)) as [|n] eqn:Hn; [lia|].
    exec_all; done.
Qed.

(** C7: the hit-test result list of a frame is read at line 136, on frames
    with a viewer pose.  When that list is empty the whole scene, and so the
    position and visibility of the reticle, is as on the previous frame; when
    it has at least one result the reticle becomes visible and stands at the
    position of the first result's pose, and no other child changes.  A frame
    without viewer pose reads no list and leaves the scene as it was. *)
Theorem reticle_sticky st frame r :
  scene (this st) !! reticle (this st) = Some r →
  let st' := final (onXRFrame frame st) in
  reticle (this st') = reticle (this st)
  ∧ (getHitTestResults frame = [] → scene (this st') = scene (this st))
  ∧ (getViewerPose frame = None → scene (this st') = scene (this st))
  ∧ (∀ pose hit rest,
       getViewerPose frame = Some pose → getHitTestResults frame = hit :: rest →
       scene (this st') !! reticle (this st') =
         Some {| name := name r; position := hit_position hit;
                 visible := true; content := content r |}
       ∧ ∀ j, j ≠ reticle (this st) → scene (this st') !! j = scene (this st) !! j).
Proof.
  intros Hr st'. subst st'. split; [|split; [|split]].
  - exec_all; done.
  - intros Hhits. exec. rewrite Hhits. exec_all; done.
  - intros Hpose. exec. rewrite Hpose. by exec.
  - intros pose hit rest Hpose Hhits. exec. rewrite Hpose, Hhits. exec_all.
    all: split; [apply list_lookup_insert_eq; by eapply lookup_lt_Some
                |intros j Hj; by apply list_lookup_insert_ne].
Qed.

Lemma step_stabilized st e :
  stabilized (this (step W st e)) =
    stabilized (this st)
    || match e with
       | Frame f => bool_decide (0 < frameCallbacks (host st)) && hits_found f
       | _ => false
       end.
Proof.
  unfold hits_found.
  destruct e; exec_all; rewrite ?orb_false_r, ?orb_true_r; try done.
  all: try (destruct (stabilized (this st)); done).
  all: try lia.
Qed.

Lemma run_stabilized es st :
  stabilized (this st) = true → stabilized (this (run W es st)) = true.
Proof.
  revert st. apply (run_invariant (λ s, stabilized (this s) = true)).
  intros st e H. by rewrite step_stabilized, H.
Qed.

Lemma run_hit_delivered es st :
  stabilized (this (run W es st)) = stabilized (this st) || hit_delivered W es st.
Proof.
  revert st. induction es as [|e es IH]; intros st.
  - cbn. by rewrite orb_false_r.
  - rewrite run_cons, IH, step_stabilized. cbn [hit_delivered].
    by rewrite orb_assoc.
Qed.

Lemma hit_delivered_app es1 es2 st :
  hit_delivered W (es1 ++ es2) st
  = hit_delivered W es1 st || hit_delivered W es2 (run W es1 st).
Proof.
  revert st. induction es1 as [|e es1 IH]; intros st; [done|].
  cbn [hit_delivered List.app]. rewrite IH, run_cons. by rewrite orb_assoc.
Qed.

Lemma flips_exact es st :
  flips W es st = if negb (stabilized (this st)) && hit_delivered W es st then 1 else 0.
Proof.
  revert st. induction es as [|e es IH]; intros st.
  - cbn. by rewrite andb_false_r.
  - cbn [flips hit_delivered]. rewrite IH, step_stabilized.
    destruct (stabilized (this st)); cbn [negb andb orb]; [done|].
    destruct (match e with
              | Frame f => bool_decide (0 < frameCallbacks (host st)) && hits_found f
              | _ => false
              end); cbn [negb andb orb]; [done|].
    by destruct (hit_delivered W es (step W st e)).
Qed.

(** C8: [stabilized] changes in a frame callback only, from false to true,
    on a frame on which the hit test yields at least one result, and nothing
    ever sets it back.  Starting unset, it therefore flips exactly once in a
    run in which such a frame is delivered, at the first such frame, and not
    at all in a run without one. *)
Theorem stabilized_one_way st e es :
  stabilized (this (step W st e)) =
    stabilized (this st)
    || match e with
       | Frame f => bool_decide (0 < frameCallbacks (host st)) && hits_found f
       | _ => false
       end
  ∧ stabilized (this (run W es st)) = stabilized (this st) || hit_delivered W es st
  ∧ (stabilized (this st) = true → stabilized (this (run W es st)) = true)
  ∧ flips W es st ≤ 1
  ∧ flips W es st = (if negb (stabilized (this st)) && hit_delivered W es st then 1 else 0)
  ∧ (∀ es1 f es2,
       es = es1 ++ Frame f :: es2 →
       stabilized (this st) = false →
       hit_delivered W es1 st = false →
       0 < frameCallbacks (host (run W es1 st)) →
       hits_found f = true →
       stabilized (this (run W es1 st)) = false
       ∧ stabilized (this (run W (es1 ++ [Frame f]) st)) = true
       ∧ stabilized (this (run W es st)) = true
       ∧ flips W es st = 1).
Proof.
  split; [apply step_stabilized|]. split; [apply run_hit_delivered|].
  split; [apply run_stabilized|].
  split.
  { rewrite flips_exact. destruct (negb _ && _); lia. }
  split; [apply flips_exact|].
  intros es1 f es2 -> Hst Hno Hfc Hhit.
  assert (H1 : stabilized (this (run W es1 st)) = false)
    by by rewrite run_hit_delivered, Hst, Hno.
  assert (Hd : hit_delivered W (es1 ++ Frame f :: es2) st = true).
  { rewrite hit_delivered_app. cbn [hit_delivered]. rewrite Hhit.
    rewrite bool_decide_eq_true_2 by done. cbn [andb orb]. by rewrite orb_true_r. }
  split; [done|]. split.
  - rewrite run_snoc, step_stabilized, Hhit, H1.
    by rewrite bool_decide_eq_true_2.
  - split; [by rewrite run_hit_delivered, Hd, orb_true_r|].
    by rewrite flips_exact, Hst, Hd.
Qed.

(** *** A load in flight *)

Lemma run_clicks (bs : list Button) st :
  this (run W (Click <$> bs) st) = this st
  ∧ host (run W (Click <$> bs) st) = host st
  ∧ selectedModel (page (run W (Click <$> bs) st)) =
      from_option asset_of (selectedModel (page st)) (last bs).
Proof.
  induction bs as [|b bs IH] using rev_ind; [done|].
  rewrite fmap_app, last_snoc. cbn [fmap list_fmap]. rewrite run_snoc.
  destruct IH as (Hthis & Hhost & _). by exec.
Qed.

(** The success callback, run when nothing is placed yet, on an asset with a
    scene and with the reticle in place. *)
Lemma onLoad_places (g : Gltf num) m r st :
  gscene g = Some m →
  modelPlaced (this st) = false →
  scene (this st) !! reticle (this st) = Some r →
  let st' := final (onLoad g st) in
  modelPlaced (this st') = true
  ∧ customModel (page st') = Some m
  ∧ (λ o, content o) <$> scene (this st') = ((λ o, content o) <$> scene (this st)) ++ [content m].
Proof.
  intros Hg Hflag Hr st'. subst st'. exec. rewrite Hg, Hflag. exec. rewrite Hr. exec.
  destruct (list_find _ _) as [[i sm]|] eqn:Hfind; exec;
    [|by rewrite fmap_app].
  apply list_find_Some in Hfind. destruct Hfind as (Hi & _).
  repeat split. rewrite list_fmap_insert. cbn [set_y content].
  rewrite list_insert_id; [by rewrite fmap_app|].
  by rewrite list_lookup_fmap, Hi.
Qed.

Lemma onSelect_unplaced st :
  modelPlaced (this st) = false →
  final (onSelect st) =
    {| this := this st; page := page st;
       host := set_loads (loads (host st) ++ [selectedModel (page st)]) (host st);
       trace := trace st ++ [Log "Tapped!"; LoaderLoad (selectedModel (page st))] |}.
Proof. intros H. exec. rewrite H. exec. by rewrite <- app_assoc. Qed.

Lemma step_load_success st k url :
  loads (host st) !! k = Some url →
  step W st (LoadSettled k true) =
    final (onLoad (fetch W url)
      {| this := this st; page := page st;
         host := set_loads (delete k (loads (host st))) (host st);
         trace := trace st |}).
Proof. intros H. cbn [step deliver bind get]. by rewrite H. Qed.

Lemma onLoad_customModel (g : Gltf num) st :
  customModel (page (final (onLoad g st))) = gscene g.
Proof. exec_all; done. Qed.

(** C10: the tap hands the selection of that moment to the loader, and the
    pending load keeps it: clicks on the model buttons before the load calls
    back change the selection but neither the pending load nor the
    controller, and the callback receives, and clones, the asset of the
    reference selected at the tap. *)
Theorem load_uses_selection_at_tap st (bs : list Button) :
  modelPlaced (this st) = false →
  let url := selectedModel (page st) in
  let st1 := final (onSelect st) in
  let st2 := run W (Click <$> bs) st1 in
  let k := length (loads (host st)) in
  let st3 := step W st2 (LoadSettled k true) in
  trace st1 = trace st ++ [Log "Tapped!"; LoaderLoad url]
  ∧ loads (host st2) = loads (host st) ++ [url]
  ∧ this st2 = this st
  ∧ selectedModel (page st2) = from_option asset_of url (last bs)
  ∧ customModel (page st3) = gscene (fetch W url)
  ∧ (∀ m r, gscene (fetch W url) = Some m →
       scene (this st) !! reticle (this st) = Some r →
       modelPlaced (this st3) = true
       ∧ (λ o, content o) <$> scene (this st3)
         = ((λ o, content o) <$> scene (this st)) ++ [content m]).
Proof.
  intros Hflag url st1 st2 k st3.
  assert (H1 : st1 =
    {| this := this st; page := page st;
       host := set_loads (loads (host st) ++ [url]) (host st);
       trace := trace st ++ [Log "Tapped!"; LoaderLoad url] |})
    by by apply onSelect_unplaced.
  destruct (run_clicks bs st1) as (Hthis & Hhost & Hsel).
  fold st2 in Hthis, Hhost, Hsel. rewrite H1 in Hthis, Hhost, Hsel.
  cbn [this page host loads set_loads selectedModel] in Hthis, Hhost, Hsel.
  assert (Hk : loads (host st2) !! k = Some url).
  { rewrite Hhost. cbn [loads set_loads]. subst k.
    by rewrite lookup_app_r, Nat.sub_diag. }
  assert (H3 : st3 = final (onLoad (fetch W url)
    {| this := this st2; page := page st2;
       host := set_loads (delete k (loads (host st2))) (host st2);
       trace := trace st2 |}))
    by by apply step_load_success.
  rewrite H1, Hhost, H3. proj. rewrite onLoad_customModel.
  split; [done|]. split; [done|]. split; [done|]. split; [done|]. split; [done|].
  intros m r Hm Hr.
  assert (Hflag2 : modelPlaced (this st2) = false) by by rewrite Hthis.
  assert (Hr2 : scene (this st2) !! reticle (this st2) = Some r) by by rewrite Hthis.
  destruct (onLoad_places (fetch W url) m r
    {| this := this st2; page := page st2;
       host := set_loads (delete k (loads (host st2))) (host st2);
       trace := trace st2 |} Hm Hflag2 Hr2) as (Hp & _ & Hc).
  split; [done|]. revert Hc. proj. by rewrite Hthis.
Qed.

(** *** Handlers run only on a scene that is set up *)

Lemma step_ready st e : ready st → ready (step W st e).
Proof.
  unfold ready. rewrite !lookup_lt_is_Some. intros H.
  destruct e; exec_all; rewrite ?length_insert, ?length_app; cbn [length]; try lia.
  all: match goal with H : list_find _ _ = Some _ |- _ =>
         apply list_find_Some in H; destruct H as (H & _);
         apply lookup_lt_Some in H; rewrite ?length_app in H; cbn [length] in H end.
  all: try lia.
Qed.

Lemma step_handlers_after_setup st e :
  handlers_after_setup st → handlers_after_setup (step W st e).
Proof.
  intros [Hr | (Hsel & Hfr & Hloads & Hacts)].
  { left. by apply step_ready. }
  destruct e; exec; rewrite ?Hsel, ?Hfr, ?Hloads, ?lookup_nil; exec.
  - right. done.
  - destruct (enterArWired (page st)); exec; [|by right].
    destruct (xr (navigator W)); exec; right; repeat split; try done.
    apply Forall_app. split; [done|]. by constructor.
  - exec_all; by right.
  - destruct (activations (host st) !! i) as [g|] eqn:Hi; exec; [|by right].
    assert (g = AwaitSession) as -> by exact (Forall_lookup_1 _ _ _ _ Hacts Hi).
    assert (Hdel : Forall (λ g, g = AwaitSession) (delete i (activations (host st))))
      by by apply Forall_delete.
    destruct r as [h|]; exec; [|by right].
    destruct (webgl W) eqn:Hgl; exec; [|by right].
    left. unfold ready. exec. apply lookup_lt_is_Some. rewrite length_app. cbn. lia.
  - by right.
  - by right.
  - by right.
Qed.

Lemma boot_handlers_after_setup : handlers_after_setup (boot W).
Proof. right. unfold boot. exec_all; repeat split; done. Qed.

(** X2: in every state the page can reach, exactly one delivery can end
    in an uncaught throw: the rejection of the pending probe, whose [await]
    is in no [try].  Every other handler returns normally: the tap, frame and
    load callbacks are registered only after [setupThreeJs], so [this.reticle]
    is never read while undefined, and a throw inside an activation is
    caught. *)
Theorem only_probe_rejection_escapes es e :
  let st := run W es (boot W) in
  (e = ProbeSettled None ∧ probePending (host st) = true →
   ∃ s, deliver W e st = Thrown s)
  ∧ (¬ (e = ProbeSettled None ∧ probePending (host st) = true) →
     ∃ s, deliver W e st = Done tt s).
Proof.
  intros st.
  assert (HJ : handlers_after_setup st).
  { apply run_invariant; [apply step_handlers_after_setup | apply boot_handlers_after_setup]. }
  clearbody st. split.
  { intros (-> & Hp). exec. rewrite Hp. exec. eauto. }
  intros Hnot. destruct e.
  - exec. eauto.
  - exec. destruct (enterArWired (page st)); exec; [|eauto].
    destruct (xr (navigator W)); exec; eauto.
  - exec. destruct (probePending (host st)); exec; [|eauto].
    destruct r as [[|]|]; exec; eauto. by destruct Hnot.
  - exec. destruct (activations (host st) !! i) as [g|]; exec; [|eauto].
    destruct r as [h|]; exec; [|eauto].
    destruct g; exec; eauto.
    destruct (webgl W); exec; eauto.
  - exec. destruct (loads (host st) !! i) as [url|] eqn:Hi; exec; [|eauto].
    destruct ok; exec; [|eauto].
    destruct HJ as [Hr | (_ & _ & Hl & _)]; [|by rewrite Hl in Hi].
    destruct Hr as [r Hr]. exec_all; eauto.
  - exec. destruct (selectListener (host st)) eqn:Hs; exec; [|eauto].
    destruct (modelPlaced (this st)); exec; eauto.
  - exec. destruct (frameCallbacks (host st)) as [|n] eqn:Hn; exec; [eauto|].
    destruct HJ as [Hr | (_ & Hf & _)]; [|by rewrite Hf in Hn].
    destruct Hr as [r Hr]. exec_all; eauto.
Qed.

(** *** After the placement *)

Lemma step_placed_frozen st e :
  modelPlaced (this st) = true →
  placements (trace (step W st e)) = placements (trace st).
Proof.
  unfold placements. intros H.
  destruct e; exec_all; count_trace; done.
Qed.

Lemma run_placed_frozen es st :
  modelPlaced (this st) = true →
  placements (trace (run W es st)) = placements (trace st).
Proof.
  revert st. induction es as [|e es IH]; intros st H; [done|].
  rewrite run_cons, IH; [by apply step_placed_frozen | by apply step_modelPlaced].
Qed.

(** X3: once [modelPlaced] is true, no event of any kind adds another clone
    to a scene: not a tap, not a load that was already in flight, not a new
    activation. *)
Theorem no_placement_after_placed st es :
  modelPlaced (this st) = true →
  placements (trace (run W es st)) = placements (trace st).
Proof. apply run_placed_frozen. Qed.

(** *** Registrations are never withdrawn *)

Lemma step_registrations st e :
  frameCallbacks (host st) ≤ frameCallbacks (host (step W st e))
  ∧ (selectListener (host st) = true → selectListener (host (step W st e)) = true)
  ∧ (enterArWired (page st) = true → enterArWired (page (step W st e)) = true).
Proof.
  destruct e; exec_all; repeat split; try done; try lia.
Qed.

(** X8: no handler cancels a frame callback or removes a listener: along
    any run the number of registered frame callbacks never goes down, so a
    frame loop that was started stays alive, and the select listener and the
    click listener of the "enter AR" button stay in place. *)
Theorem registrations_persist st es :
  frameCallbacks (host st) ≤ frameCallbacks (host (run W es st))
  ∧ (selectListener (host st) = true → selectListener (host (run W es st)) = true)
  ∧ (enterArWired (page st) = true → enterArWired (page (run W es st)) = true).
Proof.
  revert st. induction es as [|e es IH]; intros st; [done|].
  rewrite run_cons.
  destruct (step_registrations st e) as (Hf & Hs & Hw).
  destruct (IH (step W st e)) as (Hf' & Hs' & Hw').
  split; [lia|]. split; auto.
Qed.

(** *** A successful activation *)

Lemma settle_last st l g r :
  activations (host st) = l ++ [g] →
  step W st (ActivationSettled (length l) r) =
    final (resume W g r
      {| this := this st; page := page st;
         host := set_activations l (host st); trace := trace st |}).
Proof.
  intros H. cbn [step deliver bind get updHost]. rewrite H.
  rewrite list_lookup_middle by done. cbn [final].
  by rewrite delete_middle, app_nil_r.
Qed.

Lemma run_activation st i ctx s a b c :
  webgl W = Some ctx →
  activations (host st) !! i = Some AwaitSession →
  let rest := delete i (activations (host st)) in
  let k := length rest in
  let st' := run W [ActivationSettled i (Some s); ActivationSettled k (Some a);
                    ActivationSettled k (Some b); ActivationSettled k (Some c)] st in
  trace st' =
    trace st ++
      [Log "WebXR session initialized successfully."; Log "Creating XR canvas...";
       CreateCanvas; AppendCanvas; GetContext; Log "XR canvas created successfully.";
       NewXRWebGLLayer; UpdateRenderState; Log "Starting XR session..."; ClassAdd "ar";
       Log "Setting up Three.js..."; NewRenderer; CreateLitScene; NewReticle;
       SceneAdd ReticleNode; NewCamera; Log "Three.js setup completed.";
       RequestReferenceSpace "local"; RequestReferenceSpace "viewer";
       RequestHitTestSource; RequestAnimationFrame; AddSelectListener;
       Log "XR session started successfully."]
  ∧ activations (host st') = rest
  ∧ frameCallbacks (host st') = S (frameCallbacks (host st))
  ∧ selectListener (host st') = true
  ∧ (xrSession (this st') = Some s ∧ gl (this st') = Some ctx
     ∧ localReferenceSpace (this st') = Some a ∧ viewerSpace (this st') = Some b
     ∧ hitTestSource (this st') = Some c)
  ∧ (scene (this st') = createLitScene W ++ [newReticle W]
     ∧ reticle (this st') = length (createLitScene W)
     ∧ camera (this st') = Some (newCamera W))
  ∧ bodyCanvases (page st') = bodyCanvases (page st) ++ [canvasesCreated (page st)]
  ∧ "ar" ∈ bodyClasses (page st')
  ∧ modelPlaced (this st') = modelPlaced (this st)
  ∧ stabilized (this st') = stabilized (this st).
Proof.
  intros Hgl Hi rest k st'. subst st' k. unfold run. cbn [foldl].
  set (st1 := step W st (ActivationSettled i (Some s))).
  assert (H1 : activations (host st1) = rest ++ [AwaitLocalSpace]).
  { subst st1. exec. rewrite Hi. exec. by rewrite Hgl. }
  rewrite (settle_last st1 rest AwaitLocalSpace (Some a) H1).
  match goal with |- context [step W ?x (ActivationSettled _ (Some b))] => set (st2 := x) end.
  assert (H2 : activations (host st2) = rest ++ [AwaitViewerSpace]) by (subst st2; by exec).
  rewrite (settle_last st2 rest AwaitViewerSpace (Some b) H2).
  match goal with |- context [step W ?x (ActivationSettled _ (Some c))] => set (st3 := x) end.
  assert (H3 : activations (host st3) = rest ++ [AwaitHitTestSource]) by (subst st3; by exec).
  rewrite (settle_last st3 rest AwaitHitTestSource (Some c) H3).
  subst st3 st2 st1. clear H1 H2 H3. exec. rewrite Hi. exec. rewrite Hgl. exec.
  rewrite <- !app_assoc. cbn [app].
  case_bool_decide; exec; repeat split; try done.
  apply elem_of_app. right. by apply list_elem_of_singleton.
Qed.

(** X1: when the session is granted, the context can be created and the
    three further requests succeed, the activation runs through in the order
    of the source: canvas, render state, "ar" class, scene set-up, local
    space, viewer space, hit-test source, first frame callback, select
    listener.  It ends with the handles stored, a fresh scene holding the lit
    scene and the reticle, one more canvas in the document and one more frame
    callback registered; the fallback handler is not called and the placement
    and stabilized flags are left alone. *)
Theorem activation_succeeds st i ctx s a b c :
  webgl W = Some ctx →
  activations (host st) !! i = Some AwaitSession →
  let rest := delete i (activations (host st)) in
  let k := length rest in
  let st' := run W [ActivationSettled i (Some s); ActivationSettled k (Some a);
                    ActivationSettled k (Some b); ActivationSettled k (Some c)] st in
  trace st' =
    trace st ++
      [Log "WebXR session initialized successfully."; Log "Creating XR canvas...";
       CreateCanvas; AppendCanvas; GetContext; Log "XR canvas created successfully.";
       NewXRWebGLLayer; UpdateRenderState; Log "Starting XR session..."; ClassAdd "ar";
       Log "Setting up Three.js..."; NewRenderer; CreateLitScene; NewReticle;
       SceneAdd ReticleNode; NewCamera; Log "Three.js setup completed.";
       RequestReferenceSpace "local"; RequestReferenceSpace "viewer";
       RequestHitTestSource; RequestAnimationFrame; AddSelectListener;
       Log "XR session started successfully."]
  ∧ activations (host st') = rest
  ∧ frameCallbacks (host st') = S (frameCallbacks (host st))
  ∧ selectListener (host st') = true
  ∧ (xrSession (this st') = Some s ∧ gl (this st') = Some ctx
     ∧ localReferenceSpace (this st') = Some a ∧ viewerSpace (this st') = Some b
     ∧ hitTestSource (this st') = Some c)
  ∧ (scene (this st') = createLitScene W ++ [newReticle W]
     ∧ reticle (this st') = length (createLitScene W)
     ∧ camera (this st') = Some (newCamera W))
  ∧ bodyCanvases (page st') = bodyCanvases (page st) ++ [canvasesCreated (page st)]
  ∧ "ar" ∈ bodyClasses (page st')
  ∧ modelPlaced (this st') = modelPlaced (this st)
  ∧ stabilized (this st') = stabilized (this st).
Proof. apply run_activation. Qed.

(** *** What the load callback does to the scene *)

Lemma set_y_same (o : Object3D num) : set_y (vy (position o)) o = o.
Proof. by destruct o as [n [x y z] v c]. Qed.

Lemma onLoad_scene (g : Gltf num) m r st :
  gscene g = Some m →
  modelPlaced (this st) = false →
  scene (this st) !! reticle (this st) = Some r →
  let clone := {| name := name m; position := position r;
                  visible := visible m; content := content m |} in
  let grown := scene (this st) ++ [clone] in
  scene (this (final (onLoad g st))) =
    match list_find (λ c, name c = "shadowMesh") grown with
    | Some (i, shadowMesh) => <[i := set_y (vy (position r)) shadowMesh]> grown
    | None => grown
    end
  ∧ reticle (this (final (onLoad g st))) = reticle (this st).
Proof.
  intros Hg Hflag Hr clone grown. subst clone grown.
  exec. rewrite Hg, Hflag. exec. rewrite Hr. exec.
  destruct (list_find _ _) as [[i sm]|]; by exec.
Qed.

Lemma step_load_places st i url m r :
  loads (host st) !! i = Some url →
  gscene (fetch W url) = Some m →
  modelPlaced (this st) = false →
  scene (this st) !! reticle (this st) = Some r →
  let st' := step W st (LoadSettled i true) in
  last (scene (this st')) =
    Some {| name := name m; position := position r;
            visible := visible m; content := content m |}
  ∧ length (scene (this st')) = S (length (scene (this st)))
  ∧ modelPlaced (this st') = true
  ∧ placements (trace st') = S (placements (trace st)).
Proof.
  intros Hi Hm Hflag Hr st'. subst st'. rewrite (step_load_success st i url Hi).
  match goal with |- context [onLoad _ ?s] => set (s0 := s) end.
  destruct (onLoad_scene (fetch W url) m r s0 Hm Hflag Hr) as (Hscene & _).
  rewrite Hscene. cbn [this scene s0].
  split; [|split; [|split]].
  - destruct (list_find _ _) as [[j sm]|] eqn:Hfind; [|by rewrite last_snoc].
    apply list_find_Some in Hfind. destruct Hfind as (Hj & _).
    destruct (decide (j = length (scene (this st)))) as [->|Hne].
    + rewrite list_lookup_middle in Hj by done. injection Hj as <-.
      cbn [position]. rewrite last_lookup, length_insert, length_app. cbn [length].
      rewrite Nat.add_1_r. cbn [pred]. rewrite list_lookup_insert_eq.
      * f_equal. by destruct (position r).
      * rewrite length_app. cbn. lia.
    + rewrite last_lookup, length_insert, length_app. cbn [length].
      rewrite Nat.add_1_r. cbn [pred]. rewrite list_lookup_insert_ne by done.
      by rewrite list_lookup_middle.
  - destruct (list_find _ _) as [[j sm]|]; rewrite ?length_insert, length_app; cbn; lia.
  - subst s0. exec. rewrite Hm, Hflag. exec. rewrite Hr. exec.
    destruct (list_find _ _) as [[j sm]|]; by exec.
  - subst s0. unfold placements. exec. rewrite Hm, Hflag. exec. rewrite Hr. exec.
    destruct (list_find _ _) as [[j sm]|]; exec; count_trace; lia.
Qed.

(** X5: when a load calls back with an asset and nothing is placed yet, the
    scene gets exactly one new child, at its end: a copy of the loaded scene
    (name, visibility and content) standing at the position the reticle has
    at the moment of the callback, whatever it was at the tap. *)
Theorem clone_at_reticle st i url m r :
  loads (host st) !! i = Some url →
  gscene (fetch W url) = Some m →
  modelPlaced (this st) = false →
  scene (this st) !! reticle (this st) = Some r →
  let st' := step W st (LoadSettled i true) in
  last (scene (this st')) =
    Some {| name := name m; position := position r;
            visible := visible m; content := content m |}
  ∧ length (scene (this st')) = S (length (scene (this st)))
  ∧ modelPlaced (this st') = true
  ∧ placements (trace st') = S (placements (trace st)).
Proof. apply step_load_places. Qed.

(** X6: the placement aligns the shadow: the first child named
    "shadowMesh" gets the height of the clone, which is the height of the
    reticle; every other child that was in the scene, later children of that
    name included, is left as it was. *)
Theorem shadow_follows_clone st i url m r j o :
  loads (host st) !! i = Some url →
  gscene (fetch W url) = Some m →
  modelPlaced (this st) = false →
  scene (this st) !! reticle (this st) = Some r →
  scene (this st) !! j = Some o →
  let st' := step W st (LoadSettled i true) in
  let first :=
    name o = "shadowMesh"
    ∧ ∀ j' o', j' < j → scene (this st) !! j' = Some o' → name o' ≠ "shadowMesh" in
  (first → scene (this st') !! j = Some (set_y (vy (position r)) o))
  ∧ (¬ first → scene (this st') !! j = Some o).
Proof.
  intros Hi Hm Hflag Hr Hj st' first. subst st' first.
  rewrite (step_load_success st i url Hi).
  match goal with |- context [onLoad _ ?s] => set (s0 := s) end.
  destruct (onLoad_scene (fetch W url) m r s0 Hm Hflag Hr) as (Hscene & _).
  rewrite Hscene. cbn [this scene s0]. clear Hscene s0.
  set (clone := {| name := name m; position := position r;
                   visible := visible m; content := content m |}).
  assert (Hlt : j < length (scene (this st))) by by eapply lookup_lt_Some.
  assert (Hgrown : (scene (this st) ++ [clone]) !! j = Some o) by by rewrite lookup_app_l.
  split.
  - intros (Hname & Hmin).
    assert (Hfind : list_find (λ c, name c = "shadowMesh") (scene (this st) ++ [clone])
                    = Some (j, o)).
    { apply list_find_Some. split; [done|]. split; [done|].
      intros j' y Hy Hlt'. rewrite lookup_app_l in Hy by lia. by eapply Hmin. }
    rewrite Hfind. apply list_lookup_insert_eq. rewrite length_app. lia.
  - intros Hnot.
    destruct (list_find _ _) as [[k sm]|] eqn:Hfind; [|done].
    apply list_find_Some in Hfind. destruct Hfind as (Hk & Hname & Hmin).
    destruct (decide (k = j)) as [->|Hne]; [|by rewrite list_lookup_insert_ne].
    rewrite Hgrown in Hk. injection Hk as <-. destruct Hnot. split; [done|].
    intros j' o' Hlt' Ho'. eapply Hmin; [|done]. rewrite lookup_app_l by lia. done.
Qed.

(** X4: a load that fails only reports the error: the controller and the
    page are as before and the flag stays false, so the placement can be tried
    again: the next tap calls the loader once more, and if that load succeeds
    the model is placed. *)
Theorem failed_load_is_retryable st m r :
  modelPlaced (this st) = false →
  selectListener (host st) = true →
  scene (this st) !! reticle (this st) = Some r →
  gscene (fetch W (selectedModel (page st))) = Some m →
  let k := length (loads (host st)) in
  let st1 := run W [Select; LoadSettled k false] st in
  let st2 := run W [Select; LoadSettled k true] st1 in
  (this st1 = this st ∧ page st1 = page st ∧ loads (host st1) = loads (host st)
   ∧ trace st1 = trace st ++ [Log "Tapped!"; LoaderLoad (selectedModel (page st));
                              Log "An error occurred loading the model:"])
  ∧ modelPlaced (this st2) = true
  ∧ placements (trace st2) = S (placements (trace st)).
Proof.
  intros Hflag Hon Hr Hm k st1 st2.
  assert (H1 : st1 =
    {| this := this st; page := page st; host := set_loads (loads (host st)) (host st);
       trace := trace st ++ [Log "Tapped!"; LoaderLoad (selectedModel (page st));
                             Log "An error occurred loading the model:"] |}).
  { subst st1 k. unfold run. cbn [foldl]. exec. rewrite Hon. exec. rewrite Hflag. exec.
    rewrite list_lookup_middle by done. exec.
    rewrite delete_middle, app_nil_r, <- !app_assoc. done. }
  split; [by rewrite H1|].
  set (st1' := step W st1 Select).
  assert (H1' : st1' =
    {| this := this st; page := page st;
       host := set_loads (loads (host st) ++ [selectedModel (page st)]) (host st);
       trace := trace st1 ++ [Log "Tapped!"; LoaderLoad (selectedModel (page st))] |}).
  { subst st1'. rewrite H1. exec. rewrite Hon. exec. rewrite Hflag. exec.
    by rewrite <- !app_assoc. }
  assert (Hk : loads (host st1') !! k = Some (selectedModel (page st))).
  { rewrite H1'. exec. by rewrite list_lookup_middle. }
  assert (Hflag' : modelPlaced (this st1') = false) by by rewrite H1'.
  assert (Hr' : scene (this st1') !! reticle (this st1') = Some r) by by rewrite H1'.
  destruct (step_load_places st1' k _ m r Hk Hm Hflag' Hr') as (_ & _ & Hp & Hc).
  subst st2. unfold run. cbn [foldl]. fold st1'. split; [done|].
  rewrite Hc, H1', H1. unfold placements. exec. count_trace. lia.
Qed.

(** *** A frame with a pose *)

Lemma fromArray_lookup (array : list num) i :
  i < 16 → fromArray array !! i = Some (array !! i).
Proof.
  intros Hi. unfold fromArray. rewrite list_lookup_fmap, lookup_seq_lt by done. done.
Qed.

Lemma fromArray_full (array : list num) :
  length array = 16 → fromArray array = Some <$> array.
Proof.
  intros Hlen. apply list_eq. intros i.
  destruct (decide (i < 16)) as [Hi|Hi].
  - rewrite fromArray_lookup, list_lookup_fmap by done.
    destruct (lookup_lt_is_Some_2 array i) as [x Hx]; [lia|]. by rewrite Hx.
  - rewrite !lookup_ge_None_2; [done| |].
    + rewrite length_fmap. lia.
    + unfold fromArray. rewrite length_fmap, length_seq. lia.
Qed.

(** X7: on a frame with a viewer pose, each of the two camera matrices
    gets sixteen elements, element [i] being entry [i] of the corresponding
    array of the first view (so the arrays themselves when they have sixteen
    entries); the renderer takes the size of that view's viewport; and the
    frame is rendered exactly once, as the last call, after the camera update
    and the hit test. *)
Theorem tracked_frame_renders st frame pose r :
  getViewerPose frame = Some pose →
  scene (this st) !! reticle (this st) = Some r →
  let st' := final (onXRFrame frame st) in
  (∃ cam,
     camera (this st') = Some cam
     ∧ length (matrix cam) = 16 ∧ length (projectionMatrix cam) = 16
     ∧ (∀ i, i < 16 →
          matrix cam !! i = Some (view_matrix (view0 pose) !! i)
          ∧ projectionMatrix cam !! i = Some (view_projection (view0 pose) !! i))
     ∧ (length (view_matrix (view0 pose)) = 16 →
        matrix cam = Some <$> view_matrix (view0 pose))
     ∧ (length (view_projection (view0 pose)) = 16 →
        projectionMatrix cam = Some <$> view_projection (view0 pose)))
  ∧ rendererSize (this st') = Some (viewport (view0 pose))
  ∧ ∃ mid,
      trace st' = trace st ++ [Log "XR Frame"; RequestAnimationFrame; BindFramebuffer;
                               SetFramebuffer; GetViewerPose; GetViewport; SetSize;
                               CameraFromView; GetHitTestResults] ++ mid ++ [Render]
      ∧ renders mid = 0.
Proof.
  intros Hpose Hr st'. subst st'.
  assert (Hcam : ∀ (a p : list num),
    length (fromArray a) = 16 ∧ length (fromArray p) = 16
    ∧ (∀ i, i < 16 → fromArray a !! i = Some (a !! i) ∧ fromArray p !! i = Some (p !! i))
    ∧ (length a = 16 → fromArray a = Some <$> a)
    ∧ (length p = 16 → fromArray p = Some <$> p)).
  { intros a p. split; [done|]. split; [done|].
    split; [intros i Hi; split; by apply fromArray_lookup|].
    split; apply fromArray_full. }
  exec. rewrite Hpose. exec_all.
  all: rewrite <- ?app_assoc; cbn [app].
  all: split; [eexists; split; [reflexivity|]; apply Hcam|]; split; [done|].
  all: first [ by exists []
             | by exists [ClassAdd "stabilized"]
             | by exists [GetHitPose; ReticleUpdateMatrixWorld]
             | by exists [ClassAdd "stabilized"; GetHitPose; ReticleUpdateMatrixWorld] ].
Qed.

(** *** The document and the flag *)

Lemma add_class_fresh (l : list string) c : c ∉ l → NoDup l → NoDup (l ++ [c]).
Proof.
  intros Hc Hl. apply NoDup_app. split; [done|]. split; [|apply NoDup_singleton].
  intros x Hx Hx'. apply list_elem_of_singleton in Hx'. by subst.
Qed.

Lemma step_ui_in_step st e : ui_in_step st → ui_in_step (step W st e).
Proof.
  unfold ui_in_step. intros (Hiff & Hnd).
  destruct e; exec_all; try done.
  all: repeat match goal with
       | H : bool_decide _ = true |- _ => apply bool_decide_eq_true in H
       | H : bool_decide _ = false |- _ => apply bool_decide_eq_false in H
       end.
  all: split; [|by (done || apply add_class_fresh)].
  all: rewrite ?elem_of_app, ?list_elem_of_singleton; intuition (done || discriminate).
Qed.

Lemma boot_ui_in_step : ui_in_step (boot W).
Proof.
  unfold ui_in_step, boot. exec_all.
  all: split; [|apply NoDup_nil_2]; split; [done|]; by intros ?%elem_of_nil.
Qed.

(** X9: in every state the page can reach, the document carries the class
    "stabilized" exactly when the [stabilized] flag is set, and the class
    list of the body never holds a class twice. *)
Theorem stabilized_class_in_step es :
  let st := run W es (boot W) in
  (stabilized (this st) = true ↔ "stabilized" ∈ bodyClasses (page st))
  ∧ NoDup (bodyClasses (page st)).
Proof.
  apply (run_invariant ui_in_step); [apply step_ui_in_step | apply boot_ui_in_step].
Qed.

(** *** The selection before any click *)

(** X10: the page starts with model 1 selected, so in every state it can
    reach the selection is the asset of the button clicked last, or the asset
    of model 1 when none has been clicked: always one of the two assets. *)
Theorem selection_defaults_to_model1 es :
  selectedModel (page (run W es (boot W))) =
    from_option asset_of (asset_of Model1Button) (last_click es)
  ∧ (selectedModel (page (run W es (boot W))) = asset_of Model1Button
     ∨ selectedModel (page (run W es (boot W))) = asset_of Model2Button).
Proof.
  assert (Hb : selectedModel (page (boot W)) = asset_of Model1Button).
  { unfold boot. exec_all; done. }
  rewrite run_selectedModel, Hb. split; [done|].
  destruct (last_click es) as [[|]|]; cbn; auto.
Qed.

(** *** Sessions are requested on request only *)

Lemma enter_clicks_cons e es :
  enter_clicks (e :: es) =
    (match e with ClickEnterAR => 1 | _ => 0 end) + enter_clicks es.
Proof. unfold enter_clicks. by destruct e. Qed.

Lemma step_session_requests st e :
  session_requests (trace (step W st e)) ≤
    session_requests (trace st) + match e with ClickEnterAR => 1 | _ => 0 end.
Proof.
  unfold session_requests. destruct e; exec_all; count_trace; lia.
Qed.

Lemma run_session_requests es st :
  session_requests (trace (run W es st)) ≤ session_requests (trace st) + enter_clicks es.
Proof.
  revert st. induction es as [|e es IH]; intros st.
  - cbn. lia.
  - rewrite run_cons, enter_clicks_cons.
    pose proof (IH (step W st e)). pose proof (step_session_requests st e). lia.
Qed.

Lemma step_not_wired st e :
  enterArWired (page st) = false →
  e ≠ ProbeSettled (Some true) →
  enterArWired (page (step W st e)) = false
  ∧ session_requests (trace (step W st e)) = session_requests (trace st).
Proof.
  unfold session_requests. intros Hw He.
  destruct e; exec; rewrite ?Hw; exec; try (split; [done|count_trace; done]).
  all: exec_all; count_trace; try done.
Qed.

Lemma run_not_wired es st :
  enterArWired (page st) = false →
  ProbeSettled (Some true) ∉ es →
  enterArWired (page (run W es st)) = false
  ∧ session_requests (trace (run W es st)) = session_requests (trace st).
Proof.
  revert st. induction es as [|e es IH]; intros st Hw Hno; [done|].
  rewrite run_cons.
  destruct (step_not_wired st e Hw) as (Hw' & Hs').
  { intros ->. apply Hno. left. }
  rewrite <- Hs'. apply IH; [done|]. intros Hin. apply Hno. by right.
Qed.

(** X11: a session is requested only on a click on the "enter AR" button,
    at most once per click, and only after the probe has resolved to true:
    until then the button is not wired and no session is requested. *)
Theorem session_requests_need_clicks es :
  session_requests (trace (run W es (boot W))) ≤ enter_clicks es
  ∧ (ProbeSettled (Some true) ∉ es →
     enterArWired (page (run W es (boot W))) = false
     ∧ session_requests (trace (run W es (boot W))) = 0).
Proof.
  assert (Hb : enterArWired (page (boot W)) = false
               ∧ session_requests (trace (boot W)) = 0).
  { unfold boot, session_requests. exec_all; count_trace; done. }
  destruct Hb as (Hw & Hs). split.
  - pose proof (run_session_requests es (boot W)). lia.
  - intros Hno. rewrite <- Hs. by apply run_not_wired.
Qed.

(** *** The fallback handler is called once per failed attempt *)

Lemma step_fallbacks st e :
  fallbacks (trace (step W st e)) + attempts_open (step W st e) ≤
    fallbacks (trace st) + attempts_open st + match e with ClickEnterAR => 1 | _ => 0 end.
Proof.
  unfold fallbacks, attempts_open.
  destruct e; exec.
  - count_trace. lia.
  - exec_all; rewrite ?length_app; cbn [length]; count_trace; lia.
  - exec_all; count_trace; lia.
  - destruct (activations (host st) !! i) as [g|] eqn:Hi; exec; [|lia].
    assert (Hlen : length (delete i (activations (host st)))
                   = length (activations (host st)) - 1) by (apply length_delete; eauto).
    assert (Hpos : i < length (activations (host st))) by by eapply lookup_lt_Some.
    exec_all; rewrite ?length_app, ?Hlen; cbn [length]; count_trace; lia.
  - exec_all; count_trace; lia.
  - exec_all; count_trace; lia.
  - exec_all; count_trace; lia.
Qed.

(** X12: the fallback handler is called at most once for the probe and at
    most once for each click on the "enter AR" button, however the requests
    of the activations are settled. *)
Theorem fallbacks_bounded es :
  fallbacks (trace (run W es (boot W))) ≤ 1 + enter_clicks es.
Proof.
  assert (Hb : fallbacks (trace (boot W)) + attempts_open (boot W) ≤ 1).
  { unfold boot, fallbacks, attempts_open. exec_all; count_trace; cbn; lia. }
  assert (Hrun : ∀ st, fallbacks (trace (run W es st)) + attempts_open (run W es st)
                       ≤ fallbacks (trace st) + attempts_open st + enter_clicks es).
  { induction es as [|e es IH]; intros st; [cbn; lia|].
    rewrite run_cons, enter_clicks_cons.
    pose proof (IH (step W st e)). pose proof (step_fallbacks st e). lia. }
  pose proof (Hrun (boot W)). lia.
Qed.

(** *** Entering AR again *)

(** X13: the placement flag belongs to the page, not to the session.  When
    AR is entered again after a model was placed, the activation builds a
    fresh scene, in which the clone is not, while [modelPlaced] stays true:
    from then on no tap and no load can place a model in the new scene. *)
Theorem reentry_cannot_place st i ctx s a b c es :
  modelPlaced (this st) = true →
  webgl W = Some ctx →
  activations (host st) !! i = Some AwaitSession →
  let k := length (delete i (activations (host st))) in
  let st' := run W [ActivationSettled i (Some s); ActivationSettled k (Some a);
                    ActivationSettled k (Some b); ActivationSettled k (Some c)] st in
  scene (this st') = createLitScene W ++ [newReticle W]
  ∧ selectListener (host st') = true
  ∧ modelPlaced (this (run W es st')) = true
  ∧ placements (trace (run W es st')) = placements (trace st).
Proof.
  intros Hflag Hgl Hi k st'.
  destruct (run_activation st i ctx s a b c Hgl Hi)
    as (_ & _ & _ & Hsel & _ & (Hscene & _) & _ & _ & Hp & _).
  fold k in Hsel, Hscene, Hp. fold st' in Hsel, Hscene, Hp.
  assert (Hflag' : modelPlaced (this st') = true) by by rewrite Hp.
  split; [done|]. split; [done|]. split; [by apply run_modelPlaced|].
  rewrite run_placed_frozen by done. subst st'. by apply run_placed_frozen.
Qed.

End Properties.

(** ** The theorems at work on the concrete session *)

(** C1 at work: the model is placed; a click and a frame later the flag
    still holds, and three more taps leave the scene as it is. *)
Lemma placement_flag_monotone_witness :
  let st' := run phone [Click Model1Button; Frame tracked_frame] placed in
  modelPlaced (this placed) = true
  ∧ modelPlaced (this st') = true
  ∧ scene (this (run phone (replicate 3 Select) st')) = scene (this st').
Proof.
  intros st'.
  assert (Hplaced : modelPlaced (this placed) = true) by (vm_compute; reflexivity).
  pose proof (placement_flag_monotone phone placed
                [Click Model1Button; Frame tracked_frame] Hplaced) as (Hflag & _ & Htaps).
  split; [exact Hplaced|]. split; [exact Hflag | exact (Htaps 3)].
Defined.

(** C2 refuted: no execution adds two clones; in particular, with two taps
    before the first load calls back and both loads succeeding, both loads
    were dispatched and exactly one clone is in the scene. *)
Lemma no_double_placement :
  ¬ double_placement
  ∧ (let st := run phone [Frame tracked_frame; Select; Select;
                          LoadSettled 0 true; LoadSettled 0 true] started in
     count (λ e, match e with LoaderLoad _ => true | _ => false end) (trace st) = 2
     ∧ placements (trace st) = 1
     ∧ length (scene (this st)) = S (length (scene (this started)))).
Proof.
  split; [|by vm_compute].
  intros (num & W & es & H).
  pose proof (placed_once_le _ (run_placed_once W es _ (boot_placed_once W))).
  lia.
Qed.

(** C2 at work: two taps in the started session, then both loads call back. *)
Lemma two_taps_one_placement_witness :
  modelPlaced (this started) = false
  ∧ placements (trace started) = 0
  ∧ selectListener (host started) = true
  ∧ loads (host (run phone [Select; Select] started))
    = ["../assets/scene.gltf"; "../assets/scene.gltf"]
  ∧ placements (trace (run phone [LoadSettled 0 true; LoadSettled 0 true]
                         (run phone [Select; Select] started))) ≤ 1.
Proof.
  pose proof (two_taps_one_placement phone started
                [LoadSettled 0 true; LoadSettled 0 true] eq_refl eq_refl eq_refl)
    as (Hloads & _ & _ & Hle).
  split; [reflexivity|]. split; [reflexivity|]. split; [reflexivity|].
  split; [exact Hloads | exact Hle].
Defined.

(** C3 refuted: on a device where [getContext] returns null, the activation
    fails (the fallback handler is called, nothing is left pending), yet the
    canvas stays attached to the document and the session handle stays
    stored. *)
Lemma activation_not_atomic :
  let st := run (device None)
              [ProbeSettled (Some true); ClickEnterAR; ActivationSettled 0 (Some 1)]
              (boot (device None)) in
  fallbacks (trace st) = 1
  ∧ activations (host st) = []
  ∧ bodyCanvases (page st) = [0]
  ∧ canvas (this st) = Some 0
  ∧ xrSession (this st) = Some 1.
Proof. by vm_compute. Qed.

(** C3 at work on that device, and on a rejected session request. *)
Lemma activation_failure_witness :
  let st := run (device None) [ProbeSettled (Some true); ClickEnterAR] (boot (device None)) in
  webgl (device None) = None
  ∧ bodyCanvases (page (final (resume (device None) AwaitSession (Some 1) st)))
    = bodyCanvases (page st) ++ [canvasesCreated (page st)]
  ∧ page (final (resume (device None) AwaitSession None st)) = page st.
Proof.
  intros st.
  pose proof (activation_failure (device None) st AwaitSession (Some 1)) as (_ & H & _).
  pose proof (activation_failure (device None) st AwaitSession None) as (H0 & _).
  split; [reflexivity|]. split.
  - exact (proj1 (proj2 (H 1 eq_refl eq_refl eq_refl))).
  - exact (proj1 (proj2 (proj2 (H0 eq_refl)))).
Defined.

(** C4 at work: the query rejects, the user clicks the button and taps. *)
Lemma probe_rejection_unhandled_witness :
  xr (navigator phone) = Some {| has_isSessionSupported := true |}
  ∧ fallbacks (trace (run phone [ProbeSettled None; ClickEnterAR; Select] (boot phone))) = 0.
Proof.
  split; [reflexivity|].
  exact (proj1 (proj2 (probe_rejection_unhandled phone _ [ClickEnterAR; Select]
                         eq_refl eq_refl))).
Defined.


(** C6 at work: model 1, then model 2, then a tap; and the other way
    round. *)
Lemma selection_follows_last_click_witness :
  let es2 := [Click Model1Button; Frame tracked_frame; Click Model2Button] in
  let es1 := [Click Model2Button; Frame tracked_frame; Click Model1Button] in
  last_click es2 = Some Model2Button
  ∧ modelPlaced (this (run phone es2 started)) = false
  ∧ loads (host (final (onSelect (run phone es2 started)))) = ["../assets/sceneD.gltf"]
  ∧ last_click es1 = Some Model1Button
  ∧ modelPlaced (this (run phone es1 started)) = false
  ∧ loads (host (final (onSelect (run phone es1 started)))) = ["../assets/scene.gltf"].
Proof.
  intros es2 es1.
  pose proof (selection_follows_last_click phone started es2 Model2Button eq_refl eq_refl)
    as (_ & _ & H2).
  pose proof (selection_follows_last_click phone started es1 Model1Button eq_refl eq_refl)
    as (_ & _ & H1).
  split; [reflexivity|]. split; [reflexivity|]. split; [exact H2|].
  split; [reflexivity|]. split; [reflexivity|]. exact H1.
Defined.

(** C7 at work: a tracked frame moves the reticle to the hit and shows it;
    a frame with a pose but no hit, and a frame without pose, leave it. *)
Lemma reticle_sticky_witness :
  scene (this started) !! reticle (this started) = Some (node "reticle" "ring")
  ∧ scene (this (final (onXRFrame tracked_frame started))) !! 2
    = Some {| name := "reticle"; position := hit_position a_hit;
              visible := true; content := "ring" |}
  ∧ scene (this (final (onXRFrame searching_frame started))) = scene (this started)
  ∧ scene (this (final (onXRFrame lost_frame started))) = scene (this started).
Proof.
  pose proof (reticle_sticky started tracked_frame _ eq_refl) as (_ & _ & _ & H).
  pose proof (reticle_sticky started searching_frame _ eq_refl) as (_ & H1 & _ & _).
  pose proof (reticle_sticky started lost_frame _ eq_refl) as (_ & _ & H0 & _).
  split; [reflexivity|]. split; [|split].
  - exact (proj1 (H _ _ _ eq_refl eq_refl)).
  - exact (H1 eq_refl).
  - exact (H0 eq_refl).
Defined.

(** C8 at work: two frames without a hit, then two with one: the flag
    flips once, at the first frame with a hit, and stays set afterwards. *)
Lemma stabilized_one_way_witness :
  let es1 := [Frame searching_frame; Select; Frame searching_frame] in
  let es2 := [Frame tracked_frame; Frame searching_frame] in
  let es := es1 ++ Frame tracked_frame :: es2 in
  stabilized (this started) = false
  ∧ hit_delivered phone es1 started = false
  ∧ 0 < frameCallbacks (host (run phone es1 started))
  ∧ hits_found tracked_frame = true
  ∧ stabilized (this (run phone es1 started)) = false
  ∧ stabilized (this (run phone (es1 ++ [Frame tracked_frame]) started)) = true
  ∧ stabilized (this (run phone es started)) = true
  ∧ flips phone es started = 1.
Proof.
  intros es1 es2 es.
  assert (H1 : stabilized (this started) = false) by (vm_compute; reflexivity).
  assert (H2 : hit_delivered phone es1 started = false) by (vm_compute; reflexivity).
  assert (H3 : 0 < frameCallbacks (host (run phone es1 started)))
    by (vm_compute; apply le_n).
  pose proof (stabilized_one_way phone started Select es) as (_ & _ & _ & _ & _ & H).
  pose proof (H es1 tracked_frame es2 eq_refl H1 H2 H3 eq_refl) as (Ha & Hb & Hc & Hd).
  split; [exact H1|]. split; [exact H2|]. split; [exact H3|]. split; [reflexivity|].
  split; [exact Ha|]. split; [exact Hb|]. split; [exact Hc | exact Hd].
Defined.

(** C9 at work: a frame without pose in the started session. *)
Lemma frame_reregisters_first_witness :
  0 < frameCallbacks (host started)
  ∧ getViewerPose lost_frame = None
  ∧ frameCallbacks (host (step phone started (Frame lost_frame))) = 1
  ∧ this (final (onXRFrame lost_frame started)) = this started.
Proof.
  pose proof (frame_reregisters_first phone started lost_frame) as (_ & _ & Hsame & Halive).
  split; [exact (le_n 1)|]. split; [reflexivity|].
  split; [exact (Halive (le_n 1)) | exact (proj1 (Hsame eq_refl))].
Defined.

(** C10 at work: model 1 is selected at the tap; model 2 is clicked while
    the load is in flight; the clone is made of model 1. *)
Lemma load_uses_selection_at_tap_witness :
  let st := run phone [Frame tracked_frame] started in
  let st2 := run phone [Click Model2Button] (final (onSelect st)) in
  modelPlaced (this st) = false
  ∧ selectedModel (page st2) = "../assets/sceneD.gltf"
  ∧ customModel (page (step phone st2 (LoadSettled 0 true)))
    = Some (node "model" "../assets/scene.gltf").
Proof.
  intros st st2.
  pose proof (load_uses_selection_at_tap phone st [Model2Button] eq_refl)
    as (_ & _ & _ & Hsel & Hmodel & _).
  split; [reflexivity|]. split; [exact Hsel | exact Hmodel].
Defined.

(** ** The further theorems at work on the concrete session *)

(** X1 at work: the first activation of the page. *)
Lemma activation_succeeds_witness :
  let st := run phone [ProbeSettled (Some true); ClickEnterAR] (boot phone) in
  let k := length (delete 0 (activations (host st))) in
  let st' := run phone [ActivationSettled 0 (Some 1); ActivationSettled k (Some 2);
                        ActivationSettled k (Some 3); ActivationSettled k (Some 4)] st in
  webgl phone = Some 7
  ∧ activations (host st) !! 0 = Some AwaitSession
  ∧ frameCallbacks (host st') = S (frameCallbacks (host st))
  ∧ selectListener (host st') = true.
Proof.
  intros st k st'.
  pose proof (activation_succeeds phone st 0 7 1 2 3 4 eq_refl eq_refl)
    as (_ & _ & Hf & Hs & _).
  split; [reflexivity|]. split; [reflexivity|]. split; [exact Hf | exact Hs].
Defined.

(** X2 at work: at start-up the probe is pending; its rejection is thrown
    out of the handler, while a click on a model button returns. *)
Lemma only_probe_rejection_escapes_witness :
  probePending (host (run phone [] (boot phone))) = true
  ∧ (∃ s, deliver phone (ProbeSettled None) (run phone [] (boot phone)) = Thrown s)
  ∧ (∃ s, deliver phone (Click Model1Button) (run phone [] (boot phone)) = Done tt s).
Proof.
  pose proof (only_probe_rejection_escapes phone [] (ProbeSettled None)) as (Hthrow & _).
  pose proof (only_probe_rejection_escapes phone [] (Click Model1Button)) as (_ & Hdone).
  split; [reflexivity|]. split.
  - apply Hthrow. split; reflexivity.
  - apply Hdone. intros (Heq & _). discriminate Heq.
Defined.

(** X3 at work: after the placement, a tap, its load and a new activation. *)
Lemma no_placement_after_placed_witness :
  let es := [Select; LoadSettled 0 true; ClickEnterAR; ActivationSettled 0 (Some 5)] in
  modelPlaced (this placed) = true
  ∧ placements (trace (run phone es placed)) = placements (trace placed).
Proof.
  intros es.
  assert (Hplaced : modelPlaced (this placed) = true) by (vm_compute; reflexivity).
  split; [exact Hplaced|]. exact (no_placement_after_placed phone placed es Hplaced).
Defined.

(** X4 at work: in the started session the first load fails and the second
    succeeds. *)
Lemma failed_load_is_retryable_witness :
  let k := length (loads (host started)) in
  let st1 := run phone [Select; LoadSettled k false] started in
  let st2 := run phone [Select; LoadSettled k true] st1 in
  modelPlaced (this started) = false
  ∧ selectListener (host started) = true
  ∧ this st1 = this started
  ∧ modelPlaced (this st2) = true.
Proof.
  intros k st1 st2.
  assert (H1 : modelPlaced (this started) = false) by (vm_compute; reflexivity).
  assert (H2 : selectListener (host started) = true) by (vm_compute; reflexivity).
  assert (H3 : scene (this started) !! reticle (this started) = Some (node "reticle" "ring"))
    by (vm_compute; reflexivity).
  assert (H4 : gscene (fetch phone (selectedModel (page started)))
               = Some (node "model" "../assets/scene.gltf")) by (vm_compute; reflexivity).
  pose proof (failed_load_is_retryable phone started _ _ H1 H2 H3 H4) as ((Hsame & _) & Hp & _).
  split; [exact H1|]. split; [exact H2|]. split; [exact Hsame | exact Hp].
Defined.

(** X5 at work: the tap came while the reticle was at the origin; the clone
    stands where the reticle is when the load calls back. *)
Lemma clone_at_reticle_witness :
  let r := {| name := "reticle"; position := hit_position a_hit;
              visible := true; content := "ring" |} in
  let m := node "model" "../assets/scene.gltf" in
  loads (host tapped_then_tracked) !! 0 = Some "../assets/scene.gltf"
  ∧ scene (this tapped_then_tracked) !! reticle (this tapped_then_tracked) = Some r
  ∧ last (scene (this (step phone tapped_then_tracked (LoadSettled 0 true)))) =
      Some {| name := name m; position := position r;
              visible := visible m; content := content m |}.
Proof.
  intros r m.
  assert (H1 : loads (host tapped_then_tracked) !! 0 = Some "../assets/scene.gltf")
    by (vm_compute; reflexivity).
  assert (H2 : gscene (fetch phone "../assets/scene.gltf") = Some m) by reflexivity.
  assert (H3 : modelPlaced (this tapped_then_tracked) = false) by (vm_compute; reflexivity).
  assert (H4 : scene (this tapped_then_tracked) !! reticle (this tapped_then_tracked) = Some r)
    by (vm_compute; reflexivity).
  pose proof (clone_at_reticle phone tapped_then_tracked 0 _ m r H1 H2 H3 H4) as (Hlast & _).
  split; [exact H1|]. split; [exact H4 | exact Hlast].
Defined.

(** X6 at work: the shadow mesh of the lit scene, second child after the
    light, gets the height of the reticle. *)
Lemma shadow_follows_clone_witness :
  let r := {| name := "reticle"; position := hit_position a_hit;
              visible := true; content := "ring" |} in
  let o := node "shadowMesh" "plane" in
  scene (this tapped_then_tracked) !! 1 = Some o
  ∧ scene (this (step phone tapped_then_tracked (LoadSettled 0 true))) !! 1
    = Some (set_y (vy (position r)) o).
Proof.
  intros r o.
  assert (H1 : loads (host tapped_then_tracked) !! 0 = Some "../assets/scene.gltf")
    by (vm_compute; reflexivity).
  assert (H2 : gscene (fetch phone "../assets/scene.gltf")
               = Some (node "model" "../assets/scene.gltf")) by reflexivity.
  assert (H3 : modelPlaced (this tapped_then_tracked) = false) by (vm_compute; reflexivity).
  assert (H4 : scene (this tapped_then_tracked) !! reticle (this tapped_then_tracked) = Some r)
    by (vm_compute; reflexivity).
  assert (H5 : scene (this tapped_then_tracked) !! 1 = Some o) by (vm_compute; reflexivity).
  pose proof (shadow_follows_clone phone tapped_then_tracked 0 _ _ r 1 o H1 H2 H3 H4 H5)
    as (Hfirst & _).
  split; [exact H5|]. apply Hfirst. split; [reflexivity|].
  intros j' o' Hlt Ho'. destruct j' as [|j']; [|lia].
  vm_compute in Ho'. injection Ho' as <-. discriminate.
Defined.

(** X7 at work: a tracked frame in the started session. *)
Lemma tracked_frame_renders_witness :
  getViewerPose tracked_frame = Some {| view0 := a_view; more_views := [] |}
  ∧ length (view_matrix a_view) = 16
  ∧ length (view_projection a_view) = 16
  ∧ camera (this (final (onXRFrame tracked_frame started))) =
      Some {| matrix := Some <$> view_matrix a_view;
              projectionMatrix := Some <$> view_projection a_view |}
  ∧ rendererSize (this (final (onXRFrame tracked_frame started))) = Some (viewport a_view).
Proof.
  assert (H : scene (this started) !! reticle (this started) = Some (node "reticle" "ring"))
    by (vm_compute; reflexivity).
  pose proof (tracked_frame_renders started tracked_frame _ _ eq_refl H)
    as ((cam & Hc & _ & _ & _ & Hm & Hp) & Hs & _).
  split; [reflexivity|]. split; [reflexivity|]. split; [reflexivity|].
  split; [|exact Hs].
  rewrite Hc. destruct cam as [m p]. cbn [matrix projectionMatrix] in Hm, Hp.
  rewrite (Hm eq_refl), (Hp eq_refl). reflexivity.
Defined.

(** X8 at work: frames without pose, taps and a failed activation do not
    unregister anything. *)
Lemma registrations_persist_witness :
  let es := [Frame lost_frame; Select; ClickEnterAR; ActivationSettled 0 None;
             Frame lost_frame] in
  selectListener (host started) = true
  ∧ frameCallbacks (host started) ≤ frameCallbacks (host (run phone es started))
  ∧ selectListener (host (run phone es started)) = true.
Proof.
  intros es.
  assert (H : selectListener (host started) = true) by (vm_compute; reflexivity).
  pose proof (registrations_persist phone started es) as (Hf & Hs & _).
  split; [exact H|]. split; [exact Hf | exact (Hs H)].
Defined.

(** X11 at work: clicks before the probe has answered, and after it was
    rejected, request nothing. *)
Lemma session_requests_need_clicks_witness :
  let es := [ClickEnterAR; ProbeSettled None; ClickEnterAR] in
  (ProbeSettled (Some true) ∉ es)
  ∧ session_requests (trace (run phone es (boot phone))) = 0.
Proof.
  intros es.
  assert (Hno : ProbeSettled (Some true) ∉ es).
  { intros H. repeat (apply elem_of_cons in H; destruct H as [H|H]; [discriminate H|]).
    by apply elem_of_nil in H. }
  pose proof (session_requests_need_clicks phone es) as (_ & H).
  split; [exact Hno | exact (proj2 (H Hno))].
Defined.

(** X13 at work: AR is entered again after the placement, then tapped. *)
Lemma reentry_cannot_place_witness :
  let st := run phone [ClickEnterAR] placed in
  let k := length (delete 0 (activations (host st))) in
  let st' := run phone [ActivationSettled 0 (Some 5); ActivationSettled k (Some 6);
                        ActivationSettled k (Some 7); ActivationSettled k (Some 8)] st in
  let es := [Frame tracked_frame; Select; LoadSettled 0 true] in
  modelPlaced (this st) = true
  ∧ activations (host st) !! 0 = Some AwaitSession
  ∧ scene (this st') = createLitScene phone ++ [newReticle phone]
  ∧ placements (trace (run phone es st')) = placements (trace st).
Proof.
  intros st k st' es.
  assert (H1 : modelPlaced (this st) = true) by (vm_compute; reflexivity).
  assert (H2 : activations (host st) !! 0 = Some AwaitSession) by (vm_compute; reflexivity).
  pose proof (reentry_cannot_place phone st 0 7 5 6 7 8 es H1 eq_refl H2)
    as (Hscene & _ & _ & Hp).
  split; [exact H1|]. split; [exact H2|]. split; [exact Hscene | exact Hp].
Defined.
